(** * AArch64 lifting extension: a shallow embedding of [aarch64_extension.cpp]

    The development follows the source file top to bottom: the mask helper
    [Ones], the declarations the extension takes from the decoder library and
    from the host (each in a module of its own), the condition-code translator,
    the five per-mnemonic lifters and the decode-to-IL hook.

    Conventions.
    - Fixed-width unsigned integers are [Z] with the wrap-around written out
      ([wrap]).
    - An operation that C++ leaves undefined (a shift by a count outside
      [0, width), a read through a pointer to no record) yields [None].
    - The host's register catalogue, the decoder and the inherited hook are
      [Variable]s of the section that holds the extension class. *)

From Stdlib Require Import ZArith List Lia String Bool.
Import ListNotations.
Local Open Scope Z_scope.

(** ** Undefined behaviour as [option] *)

Definition bind {A B : Type} (m : option A) (k : A -> option B) : option B :=
  match m with
  | Some a => k a
  | None => None
  end.

Notation "x <- m ;; k" := (bind m (fun x => k))
  (at level 61, m at next level, right associativity).
Notation "' p <- m ;; k" := (bind m (fun p => k))
  (at level 61, p pattern, m at next level, right associativity).

(** ** Fixed-width unsigned arithmetic *)

(** The template arguments [Ones] is instantiated with in this file. *)
Inductive uint_ty : Type := uint32_t | uint64_t.

Definition sizeof (T : uint_ty) : Z :=
  match T with
  | uint32_t => 4
  | uint64_t => 8
  end.

Definition bit_width (T : uint_ty) : Z := sizeof T * 8.

(** [static_cast<T>(x)] for an unsigned [T]. *)
Definition wrap (T : uint_ty) (x : Z) : Z := x mod 2 ^ bit_width T.

(** [~x] at type [T]. *)
Definition bnot (T : uint_ty) (x : Z) : Z := wrap T (Z.lnot x).

(** [x << n] at type [T]; undefined unless [0 <= n < bit_width T]. *)
Definition shl (T : uint_ty) (x n : Z) : option Z :=
  if (0 <=? n) && (n <? bit_width T)
  then Some (wrap T (Z.shiftl x n))
  else None.

(** Conversion of an [int64_t] to [size_t] / [uint64_t]. *)
Definition to_size_t (x : Z) : Z := wrap uint64_t x.

(** Narrowing to [uint32_t]. *)
Definition to_uint32 (x : Z) : Z := wrap uint32_t x.

(** [Ones<T>(count)], lines 9-15. *)
Definition Ones (T : uint_ty) (count : Z) : option Z :=
  if count =? sizeof T * 8
  then Some (wrap T (bnot T (wrap T 0)))
  else
    shifted <- shl T (wrap T (bnot T (wrap T 0))) count ;;
    Some (bnot T shifted).

(** The local [inclusion_mask] of [LiftBFI], lines 241-246: a [uint64_t]
    assigned from a 64-bit or a 32-bit computation depending on [Rd_size].
    [width] and [lsb] are the [int64_t] immediates. *)
Definition inclusion_mask (Rd_size width lsb : Z) : option Z :=
  if Rd_size =? 8
  then
    ones <- Ones uint64_t (to_size_t width) ;;
    shl uint64_t ones lsb
  else
    ones <- Ones uint32_t (to_size_t width) ;;
    m <- shl uint32_t ones lsb ;;
    Some (wrap uint64_t m).

(** ** Declarations taken from the decoder library *)

Module Capstone.

(** [arm64_cc]: the condition codes of a decoded instruction. *)
Inductive arm64_cc : Type :=
| ARM64_CC_INVALID
| ARM64_CC_EQ | ARM64_CC_NE | ARM64_CC_HS | ARM64_CC_LO
| ARM64_CC_MI | ARM64_CC_PL | ARM64_CC_VS | ARM64_CC_VC
| ARM64_CC_HI | ARM64_CC_LS | ARM64_CC_GE | ARM64_CC_LT
| ARM64_CC_GT | ARM64_CC_LE
| ARM64_CC_AL | ARM64_CC_NV.

Definition arm64_cc_eqb (a b : arm64_cc) : bool :=
  match a, b with
  | ARM64_CC_INVALID, ARM64_CC_INVALID
  | ARM64_CC_EQ, ARM64_CC_EQ | ARM64_CC_NE, ARM64_CC_NE
  | ARM64_CC_HS, ARM64_CC_HS | ARM64_CC_LO, ARM64_CC_LO
  | ARM64_CC_MI, ARM64_CC_MI | ARM64_CC_PL, ARM64_CC_PL
  | ARM64_CC_VS, ARM64_CC_VS | ARM64_CC_VC, ARM64_CC_VC
  | ARM64_CC_HI, ARM64_CC_HI | ARM64_CC_LS, ARM64_CC_LS
  | ARM64_CC_GE, ARM64_CC_GE | ARM64_CC_LT, ARM64_CC_LT
  | ARM64_CC_GT, ARM64_CC_GT | ARM64_CC_LE, ARM64_CC_LE
  | ARM64_CC_AL, ARM64_CC_AL | ARM64_CC_NV, ARM64_CC_NV => true
  | _, _ => false
  end.

(** [arm64_op_type]: the tag of an operand. *)
Inductive arm64_op_type : Type :=
| ARM64_OP_INVALID | ARM64_OP_REG | ARM64_OP_IMM | ARM64_OP_MEM
| ARM64_OP_FP | ARM64_OP_CIMM | ARM64_OP_REG_MRS | ARM64_OP_REG_MSR
| ARM64_OP_PSTATE | ARM64_OP_SYS | ARM64_OP_PREFETCH | ARM64_OP_BARRIER.

Definition arm64_op_type_eqb (a b : arm64_op_type) : bool :=
  match a, b with
  | ARM64_OP_INVALID, ARM64_OP_INVALID | ARM64_OP_REG, ARM64_OP_REG
  | ARM64_OP_IMM, ARM64_OP_IMM | ARM64_OP_MEM, ARM64_OP_MEM
  | ARM64_OP_FP, ARM64_OP_FP | ARM64_OP_CIMM, ARM64_OP_CIMM
  | ARM64_OP_REG_MRS, ARM64_OP_REG_MRS | ARM64_OP_REG_MSR, ARM64_OP_REG_MSR
  | ARM64_OP_PSTATE, ARM64_OP_PSTATE | ARM64_OP_SYS, ARM64_OP_SYS
  | ARM64_OP_PREFETCH, ARM64_OP_PREFETCH
  | ARM64_OP_BARRIER, ARM64_OP_BARRIER => true
  | _, _ => false
  end.

(** [arm64_reg] is an enumeration with a few hundred members; it is kept
    as the integer that stores it. *)
Definition arm64_reg : Type := Z.

(** [cs_arm64_op].  The lifters read the operand's [type] tag and two
    members of its anonymous union, [reg] and [imm], the latter two without
    looking at the tag first; the record keeps both readings. *)
Record cs_arm64_op : Type := {
  type : arm64_op_type;
  reg : arm64_reg;
  imm : Z
}.

(** [cs_arm64]: condition code, operand count and the operand array. *)
Record cs_arm64 : Type := {
  cc : arm64_cc;
  op_count : Z;
  operands : list cs_arm64_op
}.

(** An entry of the operand array the decoder did not fill in. *)
Definition blank_op : cs_arm64_op :=
  {| type := ARM64_OP_INVALID; reg := 0; imm := 0 |}.

(** [detail->operands[i]]. *)
Definition operand (d : cs_arm64) (i : nat) : cs_arm64_op :=
  nth i (operands d) blank_op.

(** [arm64_insn]: the mnemonics the hook dispatches on; every other one is
    [ARM64_INS_other] with its number. *)
Inductive arm64_insn : Type :=
| ARM64_INS_CSINC | ARM64_INS_UMULL | ARM64_INS_CINC
| ARM64_INS_BFI | ARM64_INS_ROR
| ARM64_INS_other (n : Z).

(** [cs_insn], with [detail] standing for [instr->detail->arm64]. *)
Record cs_insn : Type := {
  id : arm64_insn;
  address : Z;
  size : Z;
  detail : cs_arm64
}.

End Capstone.

(** ** Declarations taken from the host *)

Module BinaryNinja.

(** [BNLowLevelILFlagCondition]. *)
Inductive BNLowLevelILFlagCondition : Type :=
| LLFC_E | LLFC_NE
| LLFC_SLT | LLFC_ULT | LLFC_SLE | LLFC_ULE
| LLFC_SGE | LLFC_UGE | LLFC_SGT | LLFC_UGT
| LLFC_NEG | LLFC_POS | LLFC_O | LLFC_NO
| LLFC_FE | LLFC_FNE | LLFC_FLT | LLFC_FLE
| LLFC_FGE | LLFC_FGT | LLFC_FO | LLFC_FUO.

(** [BNRegisterInfo]; the lifters read [size] only. *)
Record BNRegisterInfo : Type := {
  fullWidthRegister : Z;
  offset : Z;
  size : Z
}.

(** The three [LowLevelILLabel] locals of the conditional lifters. *)
Inductive LowLevelILLabel : Type :=
| assignmentLabel | incrementLabel | afterLabel.

(** The expressions built through [LowLevelILFunction]: one constructor per
    builder method the extension calls, with the method's arguments. *)
Inductive ExprId : Type :=
| Register (size : Z) (reg : Z)
| Const (size : Z) (val : Z)
| SetRegister (size : Z) (reg : Z) (val : ExprId)
| Add (size : Z) (a b : ExprId)
| Mult (size : Z) (a b : ExprId)
| And (size : Z) (a b : ExprId)
| Or (size : Z) (a b : ExprId)
| ShiftLeft (size : Z) (a b : ExprId)
| RotateRight (size : Z) (a b : ExprId)
| FlagCondition (cond : BNLowLevelILFlagCondition)
| If (operand : ExprId) (t f : LowLevelILLabel)
| Goto (label : LowLevelILLabel).

(** What the two mutating builder methods leave in the function. *)
Inductive il_item : Type :=
| Instruction (e : ExprId)
| Label (l : LowLevelILLabel).

(** The IL function under construction: its items, oldest first. *)
Definition LowLevelILFunction : Type := list il_item.

Definition AddInstruction (e : ExprId) (il : LowLevelILFunction)
  : LowLevelILFunction :=
  il ++ [Instruction e].

Definition MarkLabel (l : LowLevelILLabel) (il : LowLevelILFunction)
  : LowLevelILFunction :=
  il ++ [Label l].

(** A value reduced to [size] bytes. *)
Definition trunc (size x : Z) : Z := x mod 2 ^ (8 * size).

(** Modelled from the spec: the host's evaluation of IL expressions, which
    the repository only builds and never runs.  In a register file [regs] a
    register read yields the low [size] bytes of the register as an unsigned
    number, with no sign extension; an operation yields its result reduced
    to its own [size] bytes.  Expressions that are statements have no
    value. *)
Fixpoint eval (regs : Z -> Z) (e : ExprId) : option Z :=
  match e with
  | Register size reg => Some (trunc size (regs reg))
  | Const size val => Some (trunc size val)
  | Add size a b =>
      x <- eval regs a ;; y <- eval regs b ;; Some (trunc size (x + y))
  | Mult size a b =>
      x <- eval regs a ;; y <- eval regs b ;; Some (trunc size (x * y))
  | And size a b =>
      x <- eval regs a ;; y <- eval regs b ;; Some (trunc size (Z.land x y))
  | Or size a b =>
      x <- eval regs a ;; y <- eval regs b ;; Some (trunc size (Z.lor x y))
  | ShiftLeft size a b =>
      x <- eval regs a ;; y <- eval regs b ;;
      Some (trunc size (Z.shiftl x y))
  | RotateRight size a b =>
      x <- eval regs a ;; y <- eval regs b ;;
      let n := y mod (8 * size) in
      Some (trunc size (Z.lor (Z.shiftr (trunc size x) n)
                              (Z.shiftl (trunc size x) (8 * size - n))))
  | SetRegister _ _ _ | FlagCondition _ | If _ _ _ | Goto _ => None
  end.

End BinaryNinja.

Import Capstone BinaryNinja.

(** ** The extension class *)

Section AArch64ArchitectureExtension.

(** [cs_reg_name(disassembler.Get(), r)]: the decoder's name of a
    register. *)
Variable cs_reg_name : arm64_reg -> string.

(** [m_base->GetRegisterByName] and [m_base->GetRegisterInfo]: the host's
    register catalogue. *)
Variable GetRegisterByName : string -> Z.
Variable GetRegisterInfo : Z -> BNRegisterInfo.

(** [cs_disasm(disassembler.Get(), data, len, addr, 0, &instr)]: the
    records the decoder produced, in order; the returned count is their
    number and [instr] points at the first one. *)
Variable cs_disasm : list Byte.byte -> Z -> Z -> list cs_insn.

(** [ArchitectureHook::GetInstructionLowLevelIL(data, addr, len, il)]: the
    inherited hook, returning its result, the length it leaves in [len]
    and the function it leaves in [il]. *)
Variable ArchitectureHook_GetInstructionLowLevelIL :
  list Byte.byte -> Z -> Z -> LowLevelILFunction ->
  bool * Z * LowLevelILFunction.

(** [(BNLowLevelILFlagCondition) c]: an [arm64_cc] enumerator reinterpreted
    as a flag condition.  The outcome depends on the numbering of the two
    enumerations, which this file does not fix. *)
Variable cast_cc : arm64_cc -> BNLowLevelILFlagCondition.

(** The number the host hands out for an expression built in a given
    function.  The source's [ExprId] is that number; here it matters only
    where the source passes one in the place of a register. *)
Variable expr_index : LowLevelILFunction -> ExprId -> Z.

(** [LiftCondition], lines 57-96.  The switch covers every enumerator, so
    the trailing [return -1] is left only for a value outside the
    enumeration. *)
Definition LiftCondition (condition : arm64_cc) : BNLowLevelILFlagCondition :=
  match condition with
  | ARM64_CC_EQ => LLFC_E
  | ARM64_CC_NE => LLFC_NE
  | ARM64_CC_HS => LLFC_UGE
  | ARM64_CC_LO => LLFC_ULE
  | ARM64_CC_MI => LLFC_NEG
  | ARM64_CC_PL => LLFC_POS
  | ARM64_CC_VS => LLFC_O
  | ARM64_CC_VC => LLFC_NO
  | ARM64_CC_HI => LLFC_UGE
  | ARM64_CC_LS => LLFC_ULE
  | ARM64_CC_GE => LLFC_SGE
  | ARM64_CC_LT => LLFC_SLT
  | ARM64_CC_GT => LLFC_SGT
  | ARM64_CC_LE => LLFC_SLE
  | ARM64_CC_INVALID => cast_cc ARM64_CC_INVALID
  | ARM64_CC_AL => cast_cc ARM64_CC_AL
  | ARM64_CC_NV => cast_cc ARM64_CC_NV
  end.

(** [m_base->GetRegisterByName(cs_reg_name(disassembler.Get(), op.reg))]. *)
Definition register_of (op : cs_arm64_op) : Z :=
  GetRegisterByName (cs_reg_name (reg op)).

(** [m_base->GetRegisterInfo(r).size]. *)
Definition size_of (r : Z) : Z := BinaryNinja.size (GetRegisterInfo r).

(** [LiftCSINC], lines 103-151. *)
Definition LiftCSINC (instr : cs_insn) (il : LowLevelILFunction)
  : bool * LowLevelILFunction :=
  let detail := detail instr in
  if negb (op_count detail =? 3) then (false, il) else
  let Rd := register_of (operand detail 0) in
  let Rn := register_of (operand detail 1) in
  let Rm := register_of (operand detail 2) in
  let Rd_size := size_of Rd in
  let Rn_size := size_of Rn in
  let Rm_size := size_of Rm in
  if arm64_cc_eqb (cc detail) ARM64_CC_INVALID
     || (negb (Rd_size =? Rn_size) && negb (Rn_size =? Rm_size))
  then (false, il) else
  if arm64_cc_eqb (cc detail) ARM64_CC_AL
     || arm64_cc_eqb (cc detail) ARM64_CC_NV
  then
    (* the second argument of SetRegister is an expression here *)
    let il := AddInstruction
                (SetRegister Rd_size
                   (to_uint32 (expr_index il (Register Rd_size Rd)))
                   (Register Rn_size Rn)) il in
    (true, il)
  else
  let il := AddInstruction
              (If (FlagCondition (LiftCondition (cc detail)))
                  assignmentLabel incrementLabel) il in
  let il := MarkLabel assignmentLabel il in
  let il := AddInstruction
              (SetRegister Rd_size Rd (Register Rn_size Rn)) il in
  let il := AddInstruction (Goto afterLabel) il in
  let il := MarkLabel incrementLabel il in
  let il := AddInstruction
              (SetRegister Rd_size Rd
                 (Add Rd_size (Register Rm_size Rm) (Const Rd_size 1))) il in
  let il := MarkLabel afterLabel il in
  (true, il).

(** [LiftUMULL], lines 153-171. *)
Definition LiftUMULL (instr : cs_insn) (il : LowLevelILFunction)
  : bool * LowLevelILFunction :=
  let detail := detail instr in
  if negb (op_count detail =? 3) then (false, il) else
  let Xd := register_of (operand detail 0) in
  let Wn := register_of (operand detail 1) in
  let Wm := register_of (operand detail 2) in
  let il := AddInstruction
              (SetRegister 8 Xd (Mult 8 (Register 4 Wn) (Register 4 Wm)))
              il in
  (true, il).

(** [LiftCINC], lines 173-218. *)
Definition LiftCINC (instr : cs_insn) (il : LowLevelILFunction)
  : bool * LowLevelILFunction :=
  let detail := detail instr in
  if negb (op_count detail =? 2) then (false, il) else
  let Rd := register_of (operand detail 0) in
  let Rn := register_of (operand detail 1) in
  let Rd_size := size_of Rd in
  let Rn_size := size_of Rn in
  if arm64_cc_eqb (cc detail) ARM64_CC_INVALID then (false, il) else
  if arm64_cc_eqb (cc detail) ARM64_CC_AL
     || arm64_cc_eqb (cc detail) ARM64_CC_NV
  then
    let il := AddInstruction
                (SetRegister Rd_size Rd
                   (Add Rd_size (Register Rn_size Rn) (Const Rd_size 1)))
                il in
    (true, il)
  else
  let il := AddInstruction
              (If (FlagCondition (LiftCondition (cc detail)))
                  incrementLabel assignmentLabel) il in
  let il := MarkLabel incrementLabel il in
  let il := AddInstruction
              (SetRegister Rd_size Rd
                 (Add Rd_size (Register Rn_size Rn) (Const Rd_size 1))) il in
  let il := AddInstruction (Goto afterLabel) il in
  let il := MarkLabel assignmentLabel il in
  let il := AddInstruction
              (SetRegister Rd_size Rd (Register Rn_size Rn)) il in
  let il := MarkLabel afterLabel il in
  (true, il).

(** [LiftBFI], lines 220-257.  [Rn_size] is read from [Rd], as in the
    source (line 232). *)
Definition LiftBFI (instr : cs_insn) (il : LowLevelILFunction)
  : option (bool * LowLevelILFunction) :=
  let detail := detail instr in
  if negb (op_count detail =? 4) then Some (false, il) else
  let Rd := register_of (operand detail 0) in
  let Rn := register_of (operand detail 1) in
  let Rd_size := size_of Rd in
  let Rn_size := size_of Rd in
  let lsb := imm (operand detail 2) in
  let width := imm (operand detail 3) in
  if negb (Rd_size =? Rn_size)
     && negb (xorb (Rd_size =? 4) (Rd_size =? 8))
  then Some (false, il) else
  inclusion_mask <- inclusion_mask Rd_size width lsb ;;
  let left := And Rd_size (Register Rd_size Rd)
                  (Const Rd_size (bnot uint64_t inclusion_mask)) in
  let right := And Rd_size
                   (ShiftLeft Rd_size (Register Rd_size Rn)
                              (Const 1 (to_size_t lsb)))
                   (Const Rd_size inclusion_mask) in
  let il := AddInstruction
              (SetRegister Rd_size Rd (Or Rd_size left right)) il in
  Some (true, il).

(** [LiftROR], lines 259-298.  [Rn_size] is read from [Rd], as in the
    source (line 272). *)
Definition LiftROR (instr : cs_insn) (il : LowLevelILFunction)
  : bool * LowLevelILFunction :=
  let detail := detail instr in
  if negb (op_count detail =? 3) then (false, il) else
  let Rd := register_of (operand detail 0) in
  let Rn := register_of (operand detail 1) in
  let Rd_size := size_of Rd in
  let Rn_size := size_of Rd in
  if negb (Rd_size =? Rn_size) then (false, il) else
  if arm64_op_type_eqb (type (operand detail 2)) ARM64_OP_REG then
    let Rm := register_of (operand detail 2) in
    let il := AddInstruction
                (SetRegister Rd_size Rd
                   (RotateRight Rd_size (Register Rd_size Rn)
                                (Register Rd_size Rm))) il in
    (true, il)
  else if arm64_op_type_eqb (type (operand detail 2)) ARM64_OP_IMM then
    let shift := to_uint32 (imm (operand detail 2)) in
    let il := AddInstruction
                (SetRegister Rd_size Rd
                   (RotateRight Rd_size (Register Rd_size Rn)
                                (Const Rd_size shift))) il in
    (true, il)
  else (false, il).

(** [instr->size] after [cs_disasm]: defined only when the decoder produced
    a record for [instr] to point at. *)
Definition instr_size (instrs : list cs_insn) : option Z :=
  match instrs with
  | instr :: _ => Some (Capstone.size instr)
  | [] => None
  end.

(** [GetInstructionLowLevelIL], lines 300-351.  The result is the returned
    flag, the value left in [len] and the function left in [il]. *)
Definition GetInstructionLowLevelIL
    (data : list Byte.byte) (addr len : Z) (il : LowLevelILFunction)
  : option (bool * Z * LowLevelILFunction) :=
  let instrs := cs_disasm data len addr in
  let count := Z.of_nat (List.length instrs) in
  '(supported, il) <-
    match instrs with
    | instr :: _ =>
        if count >? 0 then
          match id instr with
          | ARM64_INS_CSINC => Some (LiftCSINC instr il)
          | ARM64_INS_UMULL => Some (LiftUMULL instr il)
          | ARM64_INS_CINC => Some (LiftCINC instr il)
          | ARM64_INS_BFI => LiftBFI instr il
          | ARM64_INS_ROR => Some (LiftROR instr il)
          | ARM64_INS_other _ => Some (false, il)
          end
        else Some (false, il)
    | [] => Some (false, il)
    end ;;
  len <- instr_size instrs ;;
  if negb supported
  then Some (ArchitectureHook_GetInstructionLowLevelIL data addr len il)
  else Some (true, len, il).

End AArch64ArchitectureExtension.

(** ** Predicates used in the statements *)

(** A lifter's outcome [r] on the function [il] is all-or-nothing: on [true]
    something was appended to [il], on [false] the function is [il] as it
    was. *)
Definition atomic (il : LowLevelILFunction) (r : bool * LowLevelILFunction)
  : Prop :=
  if fst r
  then exists added, added <> [] /\ snd r = il ++ added
  else snd r = il.

(** The width in bits of the mask computation [LiftBFI] selects for a
    destination of [Rd_size] bytes. *)
Definition mask_bits (Rd_size : Z) : Z :=
  if Rd_size =? 8 then bit_width uint64_t else bit_width uint32_t.

(** ** A sample environment

    A small register catalogue, a decoder that answers with a fixed list of
    records and an inherited hook that lifts nothing, used to run the
    extension on concrete instructions. *)

Module Sample.

(** Sample numbers for six members of the decoder's register
    enumeration. *)
Definition ARM64_REG_W0 : arm64_reg := 168.
Definition ARM64_REG_W1 : arm64_reg := 169.
Definition ARM64_REG_W2 : arm64_reg := 170.
Definition ARM64_REG_X0 : arm64_reg := 199.
Definition ARM64_REG_X1 : arm64_reg := 200.
Definition ARM64_REG_X2 : arm64_reg := 201.

Definition cs_reg_name (r : arm64_reg) : string :=
  if r =? ARM64_REG_W0 then "w0"
  else if r =? ARM64_REG_W1 then "w1"
  else if r =? ARM64_REG_W2 then "w2"
  else if r =? ARM64_REG_X0 then "x0"
  else if r =? ARM64_REG_X1 then "x1"
  else if r =? ARM64_REG_X2 then "x2"
  else EmptyString.

(** Host register numbers: [w0..w2] are 1..3, [x0..x2] are 34..36. *)
Definition GetRegisterByName (name : string) : Z :=
  if String.eqb name "w0" then 1
  else if String.eqb name "w1" then 2
  else if String.eqb name "w2" then 3
  else if String.eqb name "x0" then 34
  else if String.eqb name "x1" then 35
  else if String.eqb name "x2" then 36
  else 0.

Definition GetRegisterInfo (r : Z) : BNRegisterInfo :=
  if (1 <=? r) && (r <=? 3)
  then {| fullWidthRegister := r + 33; offset := 0; BinaryNinja.size := 4 |}
  else if (34 <=? r) && (r <=? 36)
  then {| fullWidthRegister := r; offset := 0; BinaryNinja.size := 8 |}
  else {| fullWidthRegister := r; offset := 0; BinaryNinja.size := 0 |}.

(** A decoder that needs four bytes of input and then reports [instrs]. *)
Definition cs_disasm (instrs : list cs_insn)
    (data : list Byte.byte) (len addr : Z) : list cs_insn :=
  if len <? 4 then [] else instrs.

(** An inherited hook that reports four bytes and emits nothing. *)
Definition ArchitectureHook_GetInstructionLowLevelIL
    (data : list Byte.byte) (addr len : Z) (il : LowLevelILFunction)
  : bool * Z * LowLevelILFunction :=
  (false, 4, il).

Definition cast_cc (c : arm64_cc) : BNLowLevelILFlagCondition := LLFC_FUO.

Definition expr_index (il : LowLevelILFunction) (e : ExprId) : Z :=
  Z.of_nat (List.length il).

Definition reg_op (r : arm64_reg) : cs_arm64_op :=
  {| type := ARM64_OP_REG; reg := r; imm := r |}.

Definition imm_op (i : Z) : cs_arm64_op :=
  {| type := ARM64_OP_IMM; reg := to_uint32 i; imm := i |}.

Definition insn (m : arm64_insn) (c : arm64_cc) (ops : list cs_arm64_op)
  : cs_insn :=
  {| id := m; address := 4096; Capstone.size := 4;
     detail := {| cc := c; op_count := Z.of_nat (List.length ops);
                  operands := ops |} |}.

(** [bfi x0, w1, #4, #8]: destination of 8 bytes, source of 4. *)
Definition bfi_x0_w1 : cs_insn :=
  insn ARM64_INS_BFI ARM64_CC_INVALID
       [reg_op ARM64_REG_X0; reg_op ARM64_REG_W1; imm_op 4; imm_op 8].

(** [ror x0, w1, #3]: destination of 8 bytes, source of 4. *)
Definition ror_x0_w1 : cs_insn :=
  insn ARM64_INS_ROR ARM64_CC_INVALID
       [reg_op ARM64_REG_X0; reg_op ARM64_REG_W1; imm_op 3].

(** A rotate whose third operand is a memory operand. *)
Definition ror_mem : cs_insn :=
  insn ARM64_INS_ROR ARM64_CC_INVALID
       [reg_op ARM64_REG_W0; reg_op ARM64_REG_W1;
        {| type := ARM64_OP_MEM; reg := 0; imm := 0 |}].

(** [csinc x0, w1, w2, eq]: only the first pair of widths differs. *)
Definition csinc_x0_w1_w2 : cs_insn :=
  insn ARM64_INS_CSINC ARM64_CC_EQ
       [reg_op ARM64_REG_X0; reg_op ARM64_REG_W1; reg_op ARM64_REG_W2].

(** [umull x0, w1, w2]. *)
Definition umull_x0_w1_w2 : cs_insn :=
  insn ARM64_INS_UMULL ARM64_CC_INVALID
       [reg_op ARM64_REG_X0; reg_op ARM64_REG_W1; reg_op ARM64_REG_W2].

(** A register file with [w1 = 0xFFFFFFFF] and [w2 = 2]. *)
Definition regs (r : Z) : Z :=
  if r =? 2 then 0xFFFFFFFF else if r =? 3 then 2 else 0.

Definition LiftCSINC :=
  LiftCSINC cs_reg_name GetRegisterByName GetRegisterInfo cast_cc expr_index.
Definition LiftUMULL := LiftUMULL cs_reg_name GetRegisterByName.
Definition LiftCINC :=
  LiftCINC cs_reg_name GetRegisterByName GetRegisterInfo cast_cc.
Definition LiftBFI := LiftBFI cs_reg_name GetRegisterByName GetRegisterInfo.
Definition LiftROR := LiftROR cs_reg_name GetRegisterByName GetRegisterInfo.
Definition GetInstructionLowLevelIL (instrs : list cs_insn) :=
  GetInstructionLowLevelIL cs_reg_name GetRegisterByName GetRegisterInfo
    (cs_disasm instrs) ArchitectureHook_GetInstructionLowLevelIL
    cast_cc expr_index.
Definition width_of (op : cs_arm64_op) : Z :=
  size_of GetRegisterInfo (register_of cs_reg_name GetRegisterByName op).

End Sample.

(** ** Control flow of an emitted sequence *)

Definition LowLevelILLabel_eqb (a b : LowLevelILLabel) : bool :=
  match a, b with
  | assignmentLabel, assignmentLabel
  | incrementLabel, incrementLabel
  | afterLabel, afterLabel => true
  | _, _ => false
  end.

(** The labels an instruction may transfer control to. *)
Definition targets (e : ExprId) : list LowLevelILLabel :=
  match e with
  | If _ t f => [t; f]
  | Goto label => [label]
  | _ => []
  end.

(** How many times [l] is marked in a sequence. *)
Fixpoint marks (l : LowLevelILLabel) (items : list il_item) : nat :=
  match items with
  | [] => O
  | Label l' :: rest =>
      if LowLevelILLabel_eqb l l' then S (marks l rest) else marks l rest
  | Instruction _ :: rest => marks l rest
  end.

(** Every label an instruction refers to is marked exactly once further on,
    and no label is marked twice. *)
Fixpoint labels_resolved (items : list il_item) : bool :=
  match items with
  | [] => true
  | Instruction e :: rest =>
      forallb (fun l => Nat.eqb (marks l rest) 1) (targets e)
      && labels_resolved rest
  | Label l :: rest => Nat.eqb (marks l rest) 0 && labels_resolved rest
  end.

(** Whether an expression is a branch. *)
Definition is_branch (item : il_item) : bool :=
  match item with
  | Instruction (If _ _ _) | Instruction (Goto _) | Label _ => true
  | Instruction _ => false
  end.

(** ** Running an emitted sequence *)

(** A register file with one register replaced. *)
Definition write (regs : Z -> Z) (reg v : Z) : Z -> Z :=
  fun r => if r =? reg then v else regs r.

(** The position of the mark of [l] in a sequence. *)
Fixpoint label_position (l : LowLevelILLabel) (items : list il_item)
  : option nat :=
  match items with
  | [] => None
  | Label l' :: rest =>
      if LowLevelILLabel_eqb l l' then Some O
      else option_map S (label_position l rest)
  | Instruction _ :: rest => option_map S (label_position l rest)
  end.

(** What one instruction does. *)
Inductive effect : Type :=
| Continue (regs : Z -> Z)
| Jump (l : LowLevelILLabel)
| Stuck.

(** Modelled from the spec: the host's execution of the statements the
    extension emits, which the repository only builds and never runs.  A
    register write stores the value of its operand reduced to [size] bytes;
    a two-way branch on a flag condition goes to its first label when the
    condition holds in the flags [holds] and to its second otherwise; a jump
    goes to its label. *)
Definition step (holds : BNLowLevelILFlagCondition -> bool)
    (regs : Z -> Z) (e : ExprId) : effect :=
  match e with
  | SetRegister size reg val =>
      match eval regs val with
      | Some v => Continue (write regs reg (trunc size v))
      | None => Stuck
      end
  | If (FlagCondition cond) t f => Jump (if holds cond then t else f)
  | Goto label => Jump label
  | _ => Stuck
  end.

(** Modelled from the spec: the host running a sequence from position [pc]
    until control leaves it at the end, for at most [fuel] items. *)
Fixpoint exec (holds : BNLowLevelILFlagCondition -> bool)
    (items : list il_item) (fuel pc : nat) (regs : Z -> Z)
  : option (Z -> Z) :=
  match nth_error items pc with
  | None => Some regs
  | Some item =>
      match fuel with
      | O => None
      | S fuel =>
          match item with
          | Label _ => exec holds items fuel (S pc) regs
          | Instruction e =>
              match step holds regs e with
              | Continue regs' => exec holds items fuel (S pc) regs'
              | Jump l =>
                  match label_position l items with
                  | Some target => exec holds items fuel target regs
                  | None => None
                  end
              | Stuck => None
              end
          end
      end
  end.

(** A sequence run from its start; each item is visited at most once when
    jumps go forward, so its length is fuel enough. *)
Definition run (holds : BNLowLevelILFlagCondition -> bool)
    (items : list il_item) (regs : Z -> Z) : option (Z -> Z) :=
  exec holds items (List.length items) O regs.

(** ** Complete sequences *)




(** ** Start-up *)

Module Plugin.

(** [cs_err], as far as the constructor tells results apart. *)
Inductive cs_err : Type :=
| CS_ERR_OK
| CS_ERR_other (code : Z).

(** The calls a [Disassembler] makes on the decoder library after
    [cs_open]. *)
Inductive cs_call : Type :=
| call_cs_option_detail_on (handle : Z)
| call_cs_close (handle : Z).

(** [class Disassembler], lines 17-42. *)
Record Disassembler : Type := {
  mCapstone : Z;
  mIsOK : bool
}.

(** The constructor, lines 22-29, given what [cs_open] answers: its result
    and the handle it stores ([mCapstone] stays zero when it stores
    none). *)
Definition Disassembler_new (opened : cs_err * Z)
  : Disassembler * list cs_call :=
  match fst opened with
  | CS_ERR_OK =>
      ({| mCapstone := snd opened; mIsOK := true |},
       [call_cs_option_detail_on (snd opened)])
  | CS_ERR_other _ =>
      ({| mCapstone := snd opened; mIsOK := false |}, [])
  end.

(** The destructor, lines 31-33. *)
Definition Disassembler_delete (d : Disassembler) : list cs_call :=
  [call_cs_close (mCapstone d)].

Definition IsOK (d : Disassembler) : bool := mIsOK d.

Definition Get (d : Disassembler) : Z := mCapstone d.

(** An architecture object created by this file: the extension, built
    around the pointer [Architecture::GetByName] returned (none when the
    name is unknown). *)
Inductive Architecture : Type :=
| AArch64ArchitectureExtension (aarch64 : option Z).

Inductive log_line : Type :=
| LogError (text : string)
| LogInfo (text : string).

(** The part of the host that start-up writes to: the architectures
    registered by this file, the declared dependencies and the log. *)
Record host : Type := {
  registered : list Architecture;
  dependencies : list string;
  log : list log_line
}.

(** [CorePluginDependencies], lines 355-357. *)
Definition CorePluginDependencies (h : host) : host :=
  {| registered := registered h;
     dependencies := dependencies h ++ ["arch_arm64"%string];
     log := log h |}.

(** [CorePluginInit], lines 359-372, given the host's
    [Architecture::GetByName]. *)
Definition CorePluginInit (GetByName : string -> option Z)
    (disassembler : Disassembler) (h : host) : bool * host :=
  if negb (IsOK disassembler)
  then
    (false,
     {| registered := registered h;
        dependencies := dependencies h;
        log := log h
               ++ [LogError "Failed to create AArch64 disassembler engine"] |})
  else
    let aarch64Ext := AArch64ArchitectureExtension (GetByName "aarch64"%string) in
    (true,
     {| registered := registered h ++ [aarch64Ext];
        dependencies := dependencies h;
        log := log h ++ [LogInfo "Registered AArch64 extensions plugin"] |}).

End Plugin.

(** ** More sample instructions *)

Module Inputs.

(** [cinc x0, x1, c]. *)
Definition cinc (c : arm64_cc) : cs_insn :=
  Sample.insn ARM64_INS_CINC c
    [Sample.reg_op Sample.ARM64_REG_X0; Sample.reg_op Sample.ARM64_REG_X1].

(** [csinc x0, x1, x2, c]. *)
Definition csinc (c : arm64_cc) : cs_insn :=
  Sample.insn ARM64_INS_CSINC c
    [Sample.reg_op Sample.ARM64_REG_X0; Sample.reg_op Sample.ARM64_REG_X1;
     Sample.reg_op Sample.ARM64_REG_X2].

(** [bfi w0, w1, #28, #4]. *)
Definition bfi_w0_w1 : cs_insn :=
  Sample.insn ARM64_INS_BFI ARM64_CC_INVALID
    [Sample.reg_op Sample.ARM64_REG_W0; Sample.reg_op Sample.ARM64_REG_W1;
     Sample.imm_op 28; Sample.imm_op 4].


(** An instruction with a mnemonic the hook does not handle. *)
Definition unhandled : cs_insn :=
  Sample.insn (ARM64_INS_other 7) ARM64_CC_INVALID
    [Sample.reg_op Sample.ARM64_REG_X0; Sample.reg_op Sample.ARM64_REG_X1].

(** Flags in which only signed-less-than holds. *)
Definition holds (c : BNLowLevelILFlagCondition) : bool :=
  match c with
  | LLFC_SLT => true
  | _ => false
  end.

(** A register file with [x1 = 41] and [x2 = 7]. *)
Definition regs (r : Z) : Z :=
  if r =? 35 then 41 else if r =? 36 then 7 else 0.

End Inputs.

(** * Properties *)

(** ** Mask generation *)

Lemma all_ones_eq (T : uint_ty) :
  wrap T (bnot T (wrap T 0)) = Z.ones (bit_width T).
Proof. destruct T; reflexivity. Qed.

Lemma bit_width_pos (T : uint_ty) : 0 < bit_width T.
Proof. destruct T; reflexivity. Qed.

(** Bits of a value reduced to the width of [T]. *)
Lemma wrap_testbit (T : uint_ty) (x i : Z) :
  Z.testbit (wrap T x) i = (i <? bit_width T) && Z.testbit x i.
Proof.
  unfold wrap. pose proof (bit_width_pos T) as Hw.
  destruct (Z.ltb_spec i (bit_width T)) as [Hlt | Hge]; cbn [andb].
  - destruct (Z.neg_nonneg_cases i) as [Hneg | Hpos].
    + rewrite !Z.testbit_neg_r by assumption. reflexivity.
    + apply Z.mod_pow2_bits_low. lia.
  - apply Z.mod_pow2_bits_high. lia.
Qed.

Lemma ones_testbit (n i : Z) :
  0 <= n -> Z.testbit (Z.ones n) i = (0 <=? i) && (i <? n).
Proof.
  intros Hn.
  destruct (Z.leb_spec 0 i) as [Hpos | Hneg]; cbn [andb].
  - destruct (Z.ltb_spec i n) as [Hlt | Hge].
    + apply Z.ones_spec_low. lia.
    + apply Z.ones_spec_high. lia.
  - apply Z.testbit_neg_r. assumption.
Qed.

(** Below the full width [Ones] goes through the shift and yields the
    [count] low bits. *)
Lemma Ones_below (T : uint_ty) (count : Z) :
  0 <= count < bit_width T -> Ones T count = Some (Z.ones count).
Proof.
  intros [Hlo Hhi]. unfold Ones, shl.
  change (sizeof T * 8) with (bit_width T).
  destruct (Z.eqb_spec count (bit_width T)) as [Heq | _]; [lia |].
  rewrite all_ones_eq.
  replace ((0 <=? count) && (count <? bit_width T)) with true
    by (symmetry; apply andb_true_iff; split;
        [apply Z.leb_le | apply Z.ltb_lt]; assumption).
  cbn [bind]. f_equal. unfold bnot.
  apply Z.bits_inj'. intros i Hi.
  rewrite wrap_testbit, Z.lnot_spec, wrap_testbit by assumption.
  rewrite Z.shiftl_spec by assumption.
  rewrite !ones_testbit by lia.
  destruct (Z.ltb_spec i (bit_width T)), (Z.leb_spec 0 i),
    (Z.leb_spec 0 (i - count)), (Z.ltb_spec (i - count) (bit_width T)),
    (Z.ltb_spec i count); cbn; try reflexivity; lia.
Qed.

(** At the full width [Ones] answers from its first branch. *)
Lemma Ones_full (T : uint_ty) :
  Ones T (bit_width T) = Some (Z.ones (bit_width T)).
Proof. destruct T; reflexivity. Qed.


(** C9. For every count from 0 to the bit width of [T] inclusive,
    [Ones<T>(count)] has a value, and that value has exactly the [count] low
    bits set.  At the full width the value is all ones and comes from the
    special case: the shift the other branch would perform there is
    undefined, yet [Ones] is defined. *)
Theorem Ones_contiguous_low_bits (T : uint_ty) (count : Z) :
  0 <= count <= bit_width T ->
  (exists v, Ones T count = Some v
             /\ forall i, Z.testbit v i = (0 <=? i) && (i <? count))
  /\ Ones T (bit_width T) = Some (2 ^ bit_width T - 1)
  /\ shl T (wrap T (bnot T (wrap T 0))) (bit_width T) = None.
Proof.
  intros [Hlo Hhi]. split; [| split].
  - exists (Z.ones count). split.
    + destruct (Z.eq_dec count (bit_width T)) as [-> | Hne].
      * apply Ones_full.
      * apply Ones_below. lia.
    + intros i. apply ones_testbit. assumption.
  - destruct T; reflexivity.
  - destruct T; reflexivity.
Qed.

Lemma Ones_contiguous_low_bits_witness :
  0 <= 64 <= bit_width uint64_t
  /\ Ones uint64_t 64 = Some 18446744073709551615
  /\ Ones uint32_t 7 = Some 127.
Proof.
  split; [cbv; split; discriminate |].
  destruct (Ones_contiguous_low_bits uint64_t 64) as [_ [H _]].
  - cbv; split; discriminate.
  - split; [exact H | reflexivity].
Defined.

(** C8 (amended). For a bitfield insert on an 8-byte register with lsb 4 and
    field width 8 the inclusion mask is [0xFF0]: [Ones(8)] is [0xFF],
    [Ones(8) << 4] is [0xFF0], and its set bits are exactly the eight bits
    4..11. *)
Theorem inclusion_mask_lsb4_width8 :
  inclusion_mask 8 8 4 = Some 0xFF0
  /\ Ones uint64_t 8 = Some 0xFF
  /\ shl uint64_t 0xFF 4 = Some 0xFF0
  /\ forall i, Z.testbit 0xFF0 i = (4 <=? i) && (i <? 12).
Proof.
  repeat split; try reflexivity.
  intros i. change 0xFF0 with (Z.shiftl (Z.ones 8) 4).
  destruct (Z.neg_nonneg_cases i) as [Hneg | Hpos].
  - rewrite Z.testbit_neg_r by assumption.
    destruct (Z.leb_spec 4 i); [lia | reflexivity].
  - rewrite Z.shiftl_spec by assumption.
    rewrite ones_testbit by lia.
    destruct (Z.leb_spec 0 (i - 4)), (Z.ltb_spec (i - 4) 8),
      (Z.leb_spec 4 i), (Z.ltb_spec i 12); cbn; try reflexivity; lia.
Qed.

(** C8 as stated, refuted: the computed mask is not [0x7F0]. *)
Lemma inclusion_mask_lsb4_width8_not_7F0 :
  inclusion_mask 8 8 4 <> Some 0x7F0.
Proof. discriminate. Qed.

(** ** The translator, the lifters and the hook *)

Lemma arm64_cc_eqb_eq (a b : arm64_cc) : arm64_cc_eqb a b = true <-> a = b.
Proof.
  split.
  - destruct a, b; (reflexivity || discriminate).
  - intros ->. destruct b; reflexivity.
Qed.

Lemma arm64_op_type_eqb_eq (a b : arm64_op_type) :
  arm64_op_type_eqb a b = true <-> a = b.
Proof.
  split.
  - destruct a, b; (reflexivity || discriminate).
  - intros ->. destruct b; reflexivity.
Qed.

Lemma atomic_reject (il : LowLevelILFunction) : atomic il (false, il).
Proof. reflexivity. Qed.

Lemma atomic_AddInstruction (il il' : LowLevelILFunction) (e : ExprId) :
  atomic il (true, il') -> atomic il (true, AddInstruction e il').
Proof.
  intros (added & _ & Hsnd). cbn in Hsnd. subst il'.
  exists (added ++ [Instruction e]). split.
  - destruct added; discriminate.
  - unfold AddInstruction. now rewrite app_assoc.
Qed.

Lemma atomic_MarkLabel (il il' : LowLevelILFunction) (l : LowLevelILLabel) :
  atomic il (true, il') -> atomic il (true, MarkLabel l il').
Proof.
  intros (added & _ & Hsnd). cbn in Hsnd. subst il'.
  exists (added ++ [Label l]). split.
  - destruct added; discriminate.
  - unfold MarkLabel. now rewrite app_assoc.
Qed.

Lemma atomic_first (il : LowLevelILFunction) (e : ExprId) :
  atomic il (true, AddInstruction e il).
Proof. exists [Instruction e]. split; [discriminate | reflexivity]. Qed.

Create HintDb lifters.

#[local] Hint Resolve atomic_reject atomic_first atomic_AddInstruction
  atomic_MarkLabel : lifters.

Section Properties.

Variable cs_reg_name : arm64_reg -> string.
Variable GetRegisterByName : string -> Z.
Variable GetRegisterInfo : Z -> BNRegisterInfo.
Variable cs_disasm : list Byte.byte -> Z -> Z -> list cs_insn.
Variable ArchitectureHook_GetInstructionLowLevelIL :
  list Byte.byte -> Z -> Z -> LowLevelILFunction ->
  bool * Z * LowLevelILFunction.
Variable cast_cc : arm64_cc -> BNLowLevelILFlagCondition.
Variable expr_index : LowLevelILFunction -> ExprId -> Z.

Local Abbreviation register_of := (register_of cs_reg_name GetRegisterByName).
Local Abbreviation size_of := (size_of GetRegisterInfo).
Local Abbreviation LiftCondition := (LiftCondition cast_cc).
Local Abbreviation LiftCSINC :=
  (LiftCSINC cs_reg_name GetRegisterByName GetRegisterInfo cast_cc
             expr_index).
Local Abbreviation LiftUMULL := (LiftUMULL cs_reg_name GetRegisterByName).
Local Abbreviation LiftCINC :=
  (LiftCINC cs_reg_name GetRegisterByName GetRegisterInfo cast_cc).
Local Abbreviation LiftBFI :=
  (LiftBFI cs_reg_name GetRegisterByName GetRegisterInfo).
Local Abbreviation LiftROR :=
  (LiftROR cs_reg_name GetRegisterByName GetRegisterInfo).
Local Abbreviation GetInstructionLowLevelIL :=
  (GetInstructionLowLevelIL cs_reg_name GetRegisterByName GetRegisterInfo
     cs_disasm ArchitectureHook_GetInstructionLowLevelIL cast_cc
     expr_index).

(** The width the catalogue gives the register of an operand. *)
Local Abbreviation width_of op := (size_of (register_of op)).

(** C1 (the code at the failing inputs). [LO] is translated to
    unsigned-lower-or-same and [HI] to unsigned-higher-or-same, so [HS]
    and [HI] share one flag condition, [LO] and [LS] share another, and
    neither unsigned-lower nor unsigned-higher is the translation of any
    code. *)
Theorem LiftCondition_unsigned_pairs_collide :
  LiftCondition ARM64_CC_LO = LLFC_ULE
  /\ LiftCondition ARM64_CC_HI = LLFC_UGE
  /\ LiftCondition ARM64_CC_HS = LiftCondition ARM64_CC_HI
  /\ LiftCondition ARM64_CC_LO = LiftCondition ARM64_CC_LS
  /\ LiftCondition ARM64_CC_LO <> LLFC_ULT
  /\ LiftCondition ARM64_CC_HI <> LLFC_UGT.
Proof. repeat split; discriminate. Qed.

(** The codes other than [LO] and [HI] are translated as in the
    architecture's table. *)
Lemma LiftCondition_table :
  LiftCondition ARM64_CC_EQ = LLFC_E /\ LiftCondition ARM64_CC_NE = LLFC_NE
  /\ LiftCondition ARM64_CC_HS = LLFC_UGE
  /\ LiftCondition ARM64_CC_MI = LLFC_NEG
  /\ LiftCondition ARM64_CC_PL = LLFC_POS
  /\ LiftCondition ARM64_CC_VS = LLFC_O /\ LiftCondition ARM64_CC_VC = LLFC_NO
  /\ LiftCondition ARM64_CC_LS = LLFC_ULE
  /\ LiftCondition ARM64_CC_GE = LLFC_SGE
  /\ LiftCondition ARM64_CC_LT = LLFC_SLT
  /\ LiftCondition ARM64_CC_GT = LLFC_SGT
  /\ LiftCondition ARM64_CC_LE = LLFC_SLE.
Proof. repeat split. Qed.

(** C4. With three operands, [LiftCSINC] rejects exactly when the
    condition code is invalid or both width inequalities hold (Rd differs
    from Rn and Rn differs from Rm); hence an instruction with a valid
    condition code in which at most one of the two pairs differs is
    accepted. *)
Theorem LiftCSINC_rejects_iff (instr : cs_insn) (il : LowLevelILFunction) :
  op_count (detail instr) = 3 ->
  let Rd_size := width_of (operand (detail instr) 0) in
  let Rn_size := width_of (operand (detail instr) 1) in
  let Rm_size := width_of (operand (detail instr) 2) in
  (fst (LiftCSINC instr il) = false
   <-> cc (detail instr) = ARM64_CC_INVALID
       \/ (Rd_size <> Rn_size /\ Rn_size <> Rm_size))
  /\ (cc (detail instr) <> ARM64_CC_INVALID ->
      Rd_size = Rn_size \/ Rn_size = Rm_size ->
      fst (LiftCSINC instr il) = true).
Proof.
  intros Hcount Rd_size Rn_size Rm_size.
  assert (Hiff : fst (LiftCSINC instr il) = false
                 <-> cc (detail instr) = ARM64_CC_INVALID
                     \/ (Rd_size <> Rn_size /\ Rn_size <> Rm_size)).
  { unfold LiftCSINC. rewrite Hcount. cbn [Z.eqb Pos.eqb negb].
    fold Rd_size Rn_size Rm_size.
    destruct (arm64_cc_eqb (cc (detail instr)) ARM64_CC_INVALID) eqn:Hcc;
      cbn [orb].
    - apply arm64_cc_eqb_eq in Hcc. cbn [fst]. tauto.
    - assert (Hne : cc (detail instr) <> ARM64_CC_INVALID).
      { intros H. apply arm64_cc_eqb_eq in H. congruence. }
      destruct (Z.eqb_spec Rd_size Rn_size), (Z.eqb_spec Rn_size Rm_size);
        cbn [negb andb];
        try (destruct (arm64_cc_eqb (cc (detail instr)) ARM64_CC_AL
                       || arm64_cc_eqb (cc (detail instr)) ARM64_CC_NV));
        cbn [fst]; split; try discriminate; try tauto. }
  split; [exact Hiff |].
  intros Hcc Hsizes.
  destruct (fst (LiftCSINC instr il)) eqn:Hfst; [reflexivity |].
  exfalso. destruct Hiff as [Hrej _]. specialize (Hrej eq_refl). tauto.
Qed.

(** C5. With three operands, [LiftUMULL] appends one instruction that sets
the 8-byte destination to an 8-byte multiplication of two 4-byte register
reads, with no extension node in between.  Its value is the product of the
two sources read as unsigned 32-bit numbers, which never wraps; for
[Wn = 0xFFFFFFFF] and [Wm = 2] it is [0x1FFFFFFFE]. *)
Theorem LiftUMULL_widening_product (instr : cs_insn) (il : LowLevelILFunction) :
  op_count (detail instr) = 3 ->
  let Xd := register_of (operand (detail instr) 0) in
  let Wn := register_of (operand (detail instr) 1) in
  let Wm := register_of (operand (detail instr) 2) in
  exists product,
    LiftUMULL instr il = (true, il ++ [Instruction (SetRegister 8 Xd product)])
    /\ product = Mult 8 (Register 4 Wn) (Register 4 Wm)
    /\ (forall regs,
          eval regs product
          = Some ((regs Wn mod 2 ^ 32) * (regs Wm mod 2 ^ 32)))
    /\ (forall regs,
          regs Wn = 0xFFFFFFFF -> regs Wm = 2 ->
          eval regs product = Some 0x1FFFFFFFE).
Proof.
  intros Hcount Xd Wn Wm.
  exists (Mult 8 (Register 4 Wn) (Register 4 Wm)).
  assert (Hval : forall regs,
             eval regs (Mult 8 (Register 4 Wn) (Register 4 Wm))
             = Some ((regs Wn mod 2 ^ 32) * (regs Wm mod 2 ^ 32))).
  { intros regs. cbn [eval bind]. unfold trunc.
    change (2 ^ (8 * 4)) with (2 ^ 32). change (2 ^ (8 * 8)) with (2 ^ 64).
    f_equal. apply Z.mod_small.
    pose proof (Z.mod_pos_bound (regs Wn) (2 ^ 32) eq_refl) as Hn.
    pose proof (Z.mod_pos_bound (regs Wm) (2 ^ 32) eq_refl) as Hm.
    change (2 ^ 64) with (2 ^ 32 * 2 ^ 32).
    split; [nia |]. apply Z.mul_lt_mono_nonneg; lia. }
  repeat split.
  - unfold LiftUMULL. rewrite Hcount. reflexivity.
  - exact Hval.
  - intros regs Hn Hm. rewrite Hval, Hn, Hm. reflexivity.
Qed.

(** Every lifter other than [LiftBFI] always returns, and its outcome is
all-or-nothing. *)
Lemma LiftCSINC_atomic (instr : cs_insn) (il : LowLevelILFunction) :
  atomic il (LiftCSINC instr il).
Proof.
  unfold LiftCSINC.
  repeat match goal with
         | |- context [if ?c then _ else _] => destruct c
         end; auto 10 with lifters.
Qed.

Lemma LiftUMULL_atomic (instr : cs_insn) (il : LowLevelILFunction) :
  atomic il (LiftUMULL instr il).
Proof.
  unfold LiftUMULL.
  destruct (negb (op_count (detail instr) =? 3)); auto with lifters.
Qed.

Lemma LiftCINC_atomic (instr : cs_insn) (il : LowLevelILFunction) :
  atomic il (LiftCINC instr il).
Proof.
  unfold LiftCINC.
  repeat match goal with
         | |- context [if ?c then _ else _] => destruct c
         end; auto 10 with lifters.
Qed.

Lemma LiftROR_atomic (instr : cs_insn) (il : LowLevelILFunction) :
  atomic il (LiftROR instr il).
Proof.
  unfold LiftROR.
  repeat match goal with
         | |- context [if ?c then _ else _] => destruct c
         end; auto with lifters.
Qed.

(** The width test of [LiftBFI] compares [Rd_size] with a second reading of
itself, so with four operands the lifter never rejects. *)
Lemma LiftBFI_four_operands (instr : cs_insn) (il : LowLevelILFunction) :
  op_count (detail instr) = 4 ->
  let Rd := register_of (operand (detail instr) 0) in
  let Rn := register_of (operand (detail instr) 1) in
  let lsb := imm (operand (detail instr) 2) in
  let width := imm (operand (detail instr) 3) in
  LiftBFI instr il =
  (mask <- inclusion_mask (size_of Rd) width lsb ;;
   Some (true,
         AddInstruction
           (SetRegister (size_of Rd) Rd
              (Or (size_of Rd)
                 (And (size_of Rd) (Register (size_of Rd) Rd)
                      (Const (size_of Rd) (bnot uint64_t mask)))
                 (And (size_of Rd)
                      (ShiftLeft (size_of Rd) (Register (size_of Rd) Rn)
                                 (Const 1 (to_size_t lsb)))
                      (Const (size_of Rd) mask)))) il)).
Proof.
  intros Hcount Rd Rn lsb width. unfold LiftBFI. rewrite Hcount.
  cbn [Z.eqb Pos.eqb negb]. fold Rd.
  rewrite Z.eqb_refl. reflexivity.
Qed.

(** The width test of [LiftROR] compares [Rd_size] with a second reading of
itself, so with three operands the lifter rejects only on the kind of the
third operand. *)
Lemma LiftROR_three_operands (instr : cs_insn) (il : LowLevelILFunction) :
  op_count (detail instr) = 3 ->
  fst (LiftROR instr il)
  = arm64_op_type_eqb (type (operand (detail instr) 2)) ARM64_OP_REG
    || arm64_op_type_eqb (type (operand (detail instr) 2)) ARM64_OP_IMM.
Proof.
  intros Hcount. unfold LiftROR. rewrite Hcount.
  cbn [Z.eqb Pos.eqb negb]. rewrite Z.eqb_refl. cbn [negb].
  destruct (arm64_op_type_eqb (type (operand (detail instr) 2)) ARM64_OP_REG);
    [reflexivity |].
  destruct (arm64_op_type_eqb (type (operand (detail instr) 2)) ARM64_OP_IMM);
    reflexivity.
Qed.











(** C10. A three-operand rotate whose third operand is neither a register
nor an immediate is rejected with the function untouched, whatever the
widths of Rd and Rn; when the decoder reports such a rotate, the hook
answers with the inherited hook run on the untouched function and the
decoded size. *)
Theorem LiftROR_other_operand_kind (instr : cs_insn) (il : LowLevelILFunction) :
  op_count (detail instr) = 3 ->
  type (operand (detail instr) 2) <> ARM64_OP_REG ->
  type (operand (detail instr) 2) <> ARM64_OP_IMM ->
  LiftROR instr il = (false, il)
  /\ forall data addr len rest,
       id instr = ARM64_INS_ROR ->
       cs_disasm data len addr = instr :: rest ->
       GetInstructionLowLevelIL data addr len il
       = Some (ArchitectureHook_GetInstructionLowLevelIL
                 data addr (Capstone.size instr) il).
Proof.
  intros Hcount Hreg Himm.
  assert (Hrej : LiftROR instr il = (false, il)).
  { unfold LiftROR. rewrite Hcount. cbn [Z.eqb Pos.eqb negb].
    rewrite Z.eqb_refl. cbn [negb].
    destruct (arm64_op_type_eqb _ ARM64_OP_REG) eqn:Ereg.
    - apply arm64_op_type_eqb_eq in Ereg. contradiction.
    - destruct (arm64_op_type_eqb _ ARM64_OP_IMM) eqn:Eimm.
      + apply arm64_op_type_eqb_eq in Eimm. contradiction.
      + reflexivity. }
  split; [exact Hrej |].
  intros data addr len rest Hid Hdis.
  unfold GetInstructionLowLevelIL. rewrite Hdis, Hid, Hrej.
  cbn [List.length]. rewrite Nat2Z.inj_succ.
  destruct (Z.gtb_spec (Z.succ (Z.of_nat (List.length rest))) 0); [| lia].
  reflexivity.
Qed.

(** C3 (the code when nothing is decoded). The hook assigns [instr->size] to
[len] outside the [count > 0] test that guards every other use of [instr];
with no record decoded that read has no defined value, and in particular the
hook does not answer with the inherited hook run on the incoming length. *)
Theorem GetInstructionLowLevelIL_nothing_decoded
    (data : list Byte.byte) (addr len : Z) (il : LowLevelILFunction) :
  cs_disasm data len addr = [] ->
  GetInstructionLowLevelIL data addr len il = None
  /\ GetInstructionLowLevelIL data addr len il
     <> Some (ArchitectureHook_GetInstructionLowLevelIL data addr len il).
Proof.
  intros Hdis.
  assert (Hnone : GetInstructionLowLevelIL data addr len il = None).
  { unfold GetInstructionLowLevelIL. rewrite Hdis. reflexivity. }
  split; [exact Hnone |]. rewrite Hnone. discriminate.
Qed.

(** When a record is decoded and the hook returns, the length it reports is
the decoded size, unless the inherited hook - which is handed the decoded
size - changed it. *)
Lemma GetInstructionLowLevelIL_decoded
    (data : list Byte.byte) (addr len : Z) (il : LowLevelILFunction)
    (instr : cs_insn) (rest : list cs_insn)
    (r : bool * Z * LowLevelILFunction) :
  cs_disasm data len addr = instr :: rest ->
  GetInstructionLowLevelIL data addr len il = Some r ->
  (exists il', r = (true, Capstone.size instr, il'))
  \/ (exists il',
        r = ArchitectureHook_GetInstructionLowLevelIL
              data addr (Capstone.size instr) il').
Proof.
  intros Hdis. unfold GetInstructionLowLevelIL. rewrite Hdis.
  cbn [instr_size].
  match goal with
  | |- bind ?m _ = _ -> _ => destruct m as [[supported il'] |]
  end; cbn [bind]; [| discriminate].
  destruct supported; cbn [negb]; intros [= <-]; eauto.
Qed.

End Properties.

(** ** The extension on concrete instructions *)

(** C2 (the code at the failing input). [bfi x0, w1, #4, #8] has four
operands, a destination of 8 bytes and a source of 4 bytes, and [LiftBFI]
accepts it and emits the insertion at 8 bytes. *)
Theorem LiftBFI_accepts_mismatched_widths :
  op_count (detail Sample.bfi_x0_w1) = 4
  /\ Sample.width_of (operand (detail Sample.bfi_x0_w1) 0) = 8
  /\ Sample.width_of (operand (detail Sample.bfi_x0_w1) 1) = 4
  /\ Sample.LiftBFI Sample.bfi_x0_w1 []
     = Some (true,
             [Instruction
                (SetRegister 8 34
                   (Or 8
                      (And 8 (Register 8 34) (Const 8 0xFFFFFFFFFFFFF00F))
                      (And 8 (ShiftLeft 8 (Register 8 2) (Const 1 4))
                             (Const 8 0xFF0))))]).
Proof. repeat split. Qed.

(** C7 (the code at the failing input). [ror x0, w1, #3] has three operands,
a destination of 8 bytes and a source of 4 bytes, and [LiftROR] accepts it
and emits the rotation at 8 bytes. *)
Theorem LiftROR_accepts_mismatched_widths :
  op_count (detail Sample.ror_x0_w1) = 3
  /\ Sample.width_of (operand (detail Sample.ror_x0_w1) 0) = 8
  /\ Sample.width_of (operand (detail Sample.ror_x0_w1) 1) = 4
  /\ Sample.LiftROR Sample.ror_x0_w1 []
     = (true,
        [Instruction
           (SetRegister 8 34 (RotateRight 8 (Register 8 2) (Const 8 3)))]).
Proof. repeat split. Qed.

(** A buffer of two bytes decodes to nothing, and the hook has no defined
outcome on it. *)
Lemma GetInstructionLowLevelIL_nothing_decoded_witness :
  Sample.cs_disasm [Sample.ror_x0_w1] [Byte.x00; Byte.x00] 2 4096 = []
  /\ Sample.GetInstructionLowLevelIL [Sample.ror_x0_w1]
       [Byte.x00; Byte.x00] 4096 2 [] = None.
Proof.
  split; [reflexivity |].
  apply (GetInstructionLowLevelIL_nothing_decoded
           Sample.cs_reg_name Sample.GetRegisterByName Sample.GetRegisterInfo
           (Sample.cs_disasm [Sample.ror_x0_w1])
           Sample.ArchitectureHook_GetInstructionLowLevelIL
           Sample.cast_cc Sample.expr_index).
  reflexivity.
Defined.

(** [csinc x0, w1, w2, eq]: Rd and Rn differ in width, Rn and Rm do not, and
the instruction is accepted. *)
Lemma LiftCSINC_rejects_iff_witness :
  op_count (detail Sample.csinc_x0_w1_w2) = 3
  /\ Sample.width_of (operand (detail Sample.csinc_x0_w1_w2) 0)
     <> Sample.width_of (operand (detail Sample.csinc_x0_w1_w2) 1)
  /\ fst (Sample.LiftCSINC Sample.csinc_x0_w1_w2 []) = true.
Proof.
  split; [reflexivity |]. split; [discriminate |].
  pose proof (LiftCSINC_rejects_iff
                Sample.cs_reg_name Sample.GetRegisterByName
                Sample.GetRegisterInfo Sample.cast_cc Sample.expr_index
                Sample.csinc_x0_w1_w2 [] eq_refl) as H.
  cbv zeta in H. destruct H as [_ H]. apply H.
  - discriminate.
  - right. reflexivity.
Defined.

(** [umull x0, w1, w2] with [w1 = 0xFFFFFFFF] and [w2 = 2]. *)
Lemma LiftUMULL_widening_product_witness :
  op_count (detail Sample.umull_x0_w1_w2) = 3
  /\ exists product,
       Sample.LiftUMULL Sample.umull_x0_w1_w2 []
       = (true, [Instruction (SetRegister 8 34 product)])
       /\ eval Sample.regs product = Some 8589934590.
Proof.
  split; [reflexivity |].
  destruct (LiftUMULL_widening_product
              Sample.cs_reg_name Sample.GetRegisterByName
              Sample.umull_x0_w1_w2 [] eq_refl)
    as (product & Hrun & _ & _ & Hval).
  exists product. split; [exact Hrun |].
  apply Hval; reflexivity.
Defined.



(** A rotate with a memory operand in third place, decoded from four
bytes. *)
Lemma LiftROR_other_operand_kind_witness :
  op_count (detail Sample.ror_mem) = 3
  /\ type (operand (detail Sample.ror_mem) 2) = ARM64_OP_MEM
  /\ Sample.LiftROR Sample.ror_mem [] = (false, [])
  /\ Sample.GetInstructionLowLevelIL [Sample.ror_mem]
       [Byte.x00; Byte.x00; Byte.x00; Byte.x00] 4096 4 []
     = Some (false, 4, []).
Proof.
  split; [reflexivity |]. split; [reflexivity |].
  destruct (LiftROR_other_operand_kind
              Sample.cs_reg_name Sample.GetRegisterByName
              Sample.GetRegisterInfo (Sample.cs_disasm [Sample.ror_mem])
              Sample.ArchitectureHook_GetInstructionLowLevelIL
              Sample.cast_cc Sample.expr_index
              Sample.ror_mem [] eq_refl) as [Hrej Hhook].
  - discriminate.
  - discriminate.
  - split; [exact Hrej |].
    apply (Hhook [Byte.x00; Byte.x00; Byte.x00; Byte.x00] 4096 4 []); reflexivity.
Defined.

(** * Further properties *)

(** ** Mask generation, all inputs *)

Ltac known_widths :=
  change (bit_width uint64_t) with 64 in *;
  change (bit_width uint32_t) with 32 in *.

Lemma to_size_t_range (x : Z) : 0 <= to_size_t x < 2 ^ 64.
Proof. unfold to_size_t, wrap. apply Z.mod_pos_bound. reflexivity. Qed.

Lemma shl_defined (T : uint_ty) (x n : Z) :
  0 <= n < bit_width T -> shl T x n = Some (wrap T (Z.shiftl x n)).
Proof.
  intros [Hlo Hhi]. unfold shl.
  apply Z.leb_le in Hlo. apply Z.ltb_lt in Hhi. now rewrite Hlo, Hhi.
Qed.

Lemma shl_undefined (T : uint_ty) (x n : Z) :
  ~ 0 <= n < bit_width T -> shl T x n = None.
Proof.
  intros Hout. unfold shl.
  destruct (Z.leb_spec 0 n), (Z.ltb_spec n (bit_width T));
    cbn [andb]; try reflexivity; lia.
Qed.

(** X1. [Ones<T>(count)] is undefined exactly when [count] lies outside
[0, width]: every such count reaches the shift with an amount the type does
not allow, and no other count does. *)
Theorem Ones_undefined_iff (T : uint_ty) (count : Z) :
  Ones T count = None <-> count < 0 \/ bit_width T < count.
Proof.
  split.
  - intros Hnone.
    destruct (Z_lt_le_dec count 0) as [Hneg | Hpos]; [left; assumption |].
    destruct (Z_lt_le_dec (bit_width T) count) as [Hbig | Hsmall];
      [right; assumption |].
    exfalso.
    destruct (Z.eq_dec count (bit_width T)) as [-> | Hne].
    + rewrite Ones_full in Hnone. discriminate.
    + rewrite Ones_below in Hnone by lia. discriminate.
  - intros Hout. unfold Ones. change (sizeof T * 8) with (bit_width T).
    pose proof (bit_width_pos T).
    destruct (Z.eqb_spec count (bit_width T)); [lia |].
    rewrite shl_undefined by lia. reflexivity.
Qed.

Lemma Ones_in_range (T : uint_ty) (count : Z) :
  0 <= count <= bit_width T -> Ones T count = Some (Z.ones count).
Proof.
  intros Hrange.
  destruct (Z.eq_dec count (bit_width T)) as [-> | Hne].
  - apply Ones_full.
  - apply Ones_below. lia.
Qed.

(** X2. Whenever the two immediates fit the register, the inclusion mask is
defined and its set bits are exactly the positions from [lsb] up to
[lsb + width - 1] that lie inside the register. *)
Theorem inclusion_mask_bits (Rd_size width lsb : Z) :
  0 <= lsb < mask_bits Rd_size ->
  0 <= width <= mask_bits Rd_size ->
  exists m,
    inclusion_mask Rd_size width lsb = Some m
    /\ forall i,
         Z.testbit m i
         = (lsb <=? i) && (i <? lsb + width) && (i <? mask_bits Rd_size).
Proof.
  unfold mask_bits, inclusion_mask. intros Hlsb Hwidth.
  assert (Hw : to_size_t width = width).
  { unfold to_size_t, wrap. apply Z.mod_small.
    change (2 ^ bit_width uint64_t) with 18446744073709551616.
    destruct (Rd_size =? 8); known_widths; lia. }
  assert (Hbits : forall T i,
             0 <= lsb < bit_width T ->
             Z.testbit (wrap T (Z.shiftl (Z.ones width) lsb)) i
             = (lsb <=? i) && (i <? lsb + width) && (i <? bit_width T)).
  { intros T i HT. rewrite wrap_testbit.
    destruct (Z_lt_le_dec i 0) as [Hneg | Hpos].
    - rewrite Z.testbit_neg_r by assumption.
      destruct (Z.leb_spec lsb i); [lia |].
      now rewrite andb_false_r.
    - rewrite Z.shiftl_spec by assumption. rewrite ones_testbit by lia.
      destruct (Z.ltb_spec i (bit_width T)), (Z.leb_spec 0 (i - lsb)),
        (Z.ltb_spec (i - lsb) width), (Z.leb_spec lsb i),
        (Z.ltb_spec i (lsb + width)); cbn; try reflexivity; lia. }
  rewrite Hw. destruct (Rd_size =? 8).
  - rewrite Ones_in_range by assumption. cbn [bind].
    rewrite shl_defined by assumption.
    eexists. split; [reflexivity |]. intros i. apply Hbits. assumption.
  - rewrite Ones_in_range by assumption. cbn [bind].
    rewrite shl_defined by assumption. cbn [bind].
    eexists. split; [reflexivity |]. intros i.
    rewrite wrap_testbit, Hbits by assumption.
    destruct (Z.ltb_spec i (bit_width uint64_t)),
      (Z.ltb_spec i (bit_width uint32_t)); cbn [andb];
      rewrite ?andb_true_r, ?andb_false_r; try reflexivity.
    known_widths. lia.
Qed.

Lemma inclusion_mask_bits_witness :
  0 <= 28 < mask_bits 4 /\ 0 <= 4 <= mask_bits 4
  /\ inclusion_mask 4 4 28 = Some 0xF0000000.
Proof.
  split; [cbv; split; (discriminate || reflexivity) |].
  split; [cbv; split; discriminate |].
  destruct (inclusion_mask_bits 4 4 28) as (m & Hm & _).
  - cbv; split; (discriminate || reflexivity).
  - cbv; split; discriminate.
  - reflexivity.
Defined.

(** X3. The inclusion mask - and with it a four-operand [LiftBFI] - is
undefined exactly when [lsb] is outside [0, width of the register) or the
field width, read as a [size_t], exceeds the register. *)
Theorem inclusion_mask_undefined_iff (Rd_size width lsb : Z) :
  inclusion_mask Rd_size width lsb = None
  <-> ~ 0 <= lsb < mask_bits Rd_size
      \/ mask_bits Rd_size < to_size_t width.
Proof.
  pose proof (to_size_t_range width) as Hc.
  assert (Hgen : forall T (k : Z -> option Z),
             (forall x, k x <> None) ->
             (ones <- Ones T (to_size_t width) ;;
              m <- shl T ones lsb ;; k m) = None
             <-> ~ 0 <= lsb < bit_width T \/ bit_width T < to_size_t width).
  { intros T k Hk.
    destruct (Z_lt_le_dec (bit_width T) (to_size_t width)) as [Hbig | Hfit].
    - replace (Ones T (to_size_t width)) with (@None Z)
        by (symmetry; apply Ones_undefined_iff; right; assumption).
      cbn [bind]. split; [right; assumption | reflexivity].
    - rewrite Ones_in_range by lia. cbn [bind].
      destruct (Z_lt_le_dec lsb 0) as [Hneg | Hpos];
        [| destruct (Z_lt_le_dec lsb (bit_width T)) as [Hlt | Hge]].
      + rewrite shl_undefined by lia. cbn [bind].
        split; [left; lia | reflexivity].
      + rewrite shl_defined by lia. cbn [bind].
        split; [intros H; now apply Hk in H | lia].
      + rewrite shl_undefined by lia. cbn [bind].
        split; [left; lia | reflexivity]. }
  unfold inclusion_mask, mask_bits. destruct (Rd_size =? 8).
  - specialize (Hgen uint64_t (fun m => Some m)).
    cbv beta in Hgen.
    assert (Hsame : forall o : option Z, (m <- o ;; Some m) = o)
      by (intros [x |]; reflexivity).
    rewrite <- Hgen by discriminate.
    destruct (Ones uint64_t (to_size_t width)); cbn [bind];
      [rewrite Hsame |]; reflexivity.
  - apply (Hgen uint32_t (fun m => Some (wrap uint64_t m))). discriminate.
Qed.

(** ** The lifters, all inputs *)

Lemma trunc_idem (size x : Z) : trunc size (trunc size x) = trunc size x.
Proof. unfold trunc. apply Zmod_mod. Qed.

Lemma trunc_testbit (size x i : Z) :
  0 <= size ->
  Z.testbit (trunc size x) i = (i <? 8 * size) && Z.testbit x i.
Proof.
  intros Hsize. unfold trunc.
  destruct (Z.ltb_spec i (8 * size)) as [Hlt | Hge]; cbn [andb].
  - destruct (Z.neg_nonneg_cases i) as [Hneg | Hpos].
    + rewrite !Z.testbit_neg_r by assumption. reflexivity.
    + apply Z.mod_pow2_bits_low. lia.
  - apply Z.mod_pow2_bits_high. lia.
Qed.

Section MoreProperties.

Variable cs_reg_name : arm64_reg -> string.
Variable GetRegisterByName : string -> Z.
Variable GetRegisterInfo : Z -> BNRegisterInfo.
Variable cs_disasm : list Byte.byte -> Z -> Z -> list cs_insn.
Variable ArchitectureHook_GetInstructionLowLevelIL :
  list Byte.byte -> Z -> Z -> LowLevelILFunction ->
  bool * Z * LowLevelILFunction.
Variable cast_cc : arm64_cc -> BNLowLevelILFlagCondition.
Variable expr_index : LowLevelILFunction -> ExprId -> Z.

Local Abbreviation register_of :=
  (register_of cs_reg_name GetRegisterByName).
Local Abbreviation size_of := (size_of GetRegisterInfo).
Local Abbreviation LiftCondition := (LiftCondition cast_cc).
Local Abbreviation LiftCSINC :=
  (LiftCSINC cs_reg_name GetRegisterByName GetRegisterInfo cast_cc
             expr_index).
Local Abbreviation LiftUMULL := (LiftUMULL cs_reg_name GetRegisterByName).
Local Abbreviation LiftCINC :=
  (LiftCINC cs_reg_name GetRegisterByName GetRegisterInfo cast_cc).
Local Abbreviation LiftBFI :=
  (LiftBFI cs_reg_name GetRegisterByName GetRegisterInfo).
Local Abbreviation LiftROR :=
  (LiftROR cs_reg_name GetRegisterByName GetRegisterInfo).
Local Abbreviation GetInstructionLowLevelIL :=
  (GetInstructionLowLevelIL cs_reg_name GetRegisterByName GetRegisterInfo
     cs_disasm ArchitectureHook_GetInstructionLowLevelIL cast_cc
     expr_index).

(** X4. [LiftCINC] rejects exactly when the operand count is not two or the
condition code is invalid.  It reads the widths of Rd and Rn but never
compares them, so no combination of widths is rejected. *)
Theorem LiftCINC_rejects_iff (instr : cs_insn) (il : LowLevelILFunction) :
  fst (LiftCINC instr il) = false
  <-> op_count (detail instr) <> 2
      \/ cc (detail instr) = ARM64_CC_INVALID.
Proof.
  unfold LiftCINC.
  destruct (Z.eqb_spec (op_count (detail instr)) 2) as [Heq | Hne];
    cbn [negb].
  - destruct (cc (detail instr)); cbn; split; intros H;
      try discriminate; try (right; reflexivity);
      destruct H as [H | H]; congruence.
  - cbn [fst]. split; [left; assumption | reflexivity].
Qed.

(** X5. [LiftROR] accepts exactly the instructions with three operands
whose third operand is tagged as a register or as an immediate; the widths
of the registers play no part. *)
Theorem LiftROR_accepts_iff (instr : cs_insn) (il : LowLevelILFunction) :
  fst (LiftROR instr il) = true
  <-> op_count (detail instr) = 3
      /\ (type (operand (detail instr) 2) = ARM64_OP_REG
          \/ type (operand (detail instr) 2) = ARM64_OP_IMM).
Proof.
  unfold LiftROR.
  destruct (Z.eqb_spec (op_count (detail instr)) 3) as [Heq | Hne];
    cbn [negb].
  - rewrite Z.eqb_refl. cbn [negb].
    destruct (type (operand (detail instr) 2)); cbn; split; intros H;
      try discriminate; try reflexivity; try (split; [assumption | tauto]);
      destruct H as [_ [H | H]]; discriminate.
  - cbn [fst]. split; [discriminate | intros [H _]; contradiction].
Qed.

(** X6. [LiftBFI] returns [false] exactly when the operand count is not
four.  Its width test can never fire, so no four-operand instruction is
rejected, whatever the widths of Rd and Rn and whatever the immediates. *)
Theorem LiftBFI_rejects_iff (instr : cs_insn) (il : LowLevelILFunction) :
  (exists il', LiftBFI instr il = Some (false, il'))
  <-> op_count (detail instr) <> 4.
Proof.
  split.
  - intros [il' Hrun] Heq.
    rewrite (LiftBFI_four_operands _ _ _ instr il Heq) in Hrun.
    destruct (inclusion_mask _ _ _); cbn [bind] in Hrun; discriminate.
  - intros Hne. exists il. unfold LiftBFI.
    destruct (Z.eqb_spec (op_count (detail instr)) 4); [contradiction |].
    reflexivity.
Qed.

Ltac split_ifs :=
  repeat match goal with
         | |- context [if ?c then _ else _] => destruct c
         end.

(** X7. Whatever the instruction, what a conditional lifter appends keeps
its control flow closed: every label an appended branch or jump names is
marked exactly once later in the appended sequence, and no label is marked
twice. *)
Theorem conditional_lifters_labels_resolved
    (instr : cs_insn) (il : LowLevelILFunction) :
  (exists added,
     snd (LiftCSINC instr il) = il ++ added
     /\ labels_resolved added = true)
  /\ (exists added,
        snd (LiftCINC instr il) = il ++ added
        /\ labels_resolved added = true).
Proof.
  split.
  - unfold LiftCSINC. split_ifs; cbn [snd].
    + exists []. split; [symmetry; apply app_nil_r | reflexivity].
    + exists []. split; [symmetry; apply app_nil_r | reflexivity].
    + eexists. split; [reflexivity | reflexivity].
    + unfold AddInstruction, MarkLabel. rewrite <- !app_assoc.
      eexists. split; [reflexivity | reflexivity].
  - unfold LiftCINC. split_ifs; cbn [snd].
    + exists []. split; [symmetry; apply app_nil_r | reflexivity].
    + exists []. split; [symmetry; apply app_nil_r | reflexivity].
    + eexists. split; [reflexivity | reflexivity].
    + unfold AddInstruction, MarkLabel. rewrite <- !app_assoc.
      eexists. split; [reflexivity | reflexivity].
Qed.

(** X8. For the condition codes [AL] and [NV] a conditional lifter that
accepts appends a single item, and that item is neither a branch, a jump
nor a label; the two codes give the same outcome on instructions that agree
in everything else. *)
Theorem unconditional_codes_emit_no_branch
    (instr other : cs_insn) (il : LowLevelILFunction) :
  cc (detail instr) = ARM64_CC_AL ->
  cc (detail other) = ARM64_CC_NV ->
  op_count (detail other) = op_count (detail instr) ->
  operands (detail other) = operands (detail instr) ->
  LiftCSINC other il = LiftCSINC instr il
  /\ LiftCINC other il = LiftCINC instr il
  /\ (fst (LiftCSINC instr il) = true ->
      exists item, snd (LiftCSINC instr il) = il ++ [item]
                   /\ is_branch item = false)
  /\ (fst (LiftCINC instr il) = true ->
      exists item, snd (LiftCINC instr il) = il ++ [item]
                   /\ is_branch item = false).
Proof.
  intros Hal Hnv Hcount Hops.
  unfold LiftCSINC, LiftCINC, operand.
  rewrite Hal, Hnv, Hcount, Hops. cbn [arm64_cc_eqb orb].
  split; [reflexivity |]. split; [reflexivity |].
  split; split_ifs; cbn [fst snd]; intros Hacc; try discriminate;
    eexists; (split; [reflexivity | reflexivity]).
Qed.

(** X9. Run on any register file and any flags, what [LiftCINC] appends for
a two-operand instruction with a valid condition code writes one register,
Rd: the value of Rn plus one when the code is [AL] or [NV] or the translated
condition holds, and the value of Rn otherwise.  Both ways through the
appended sequence reach its end. *)
Theorem LiftCINC_run (instr : cs_insn) (il : LowLevelILFunction) :
  op_count (detail instr) = 2 ->
  cc (detail instr) <> ARM64_CC_INVALID ->
  let Rd := register_of (operand (detail instr) 0) in
  let Rn := register_of (operand (detail instr) 1) in
  exists added,
    LiftCINC instr il = (true, il ++ added)
    /\ forall holds regs,
         let increment :=
           arm64_cc_eqb (cc (detail instr)) ARM64_CC_AL
           || arm64_cc_eqb (cc (detail instr)) ARM64_CC_NV
           || holds (LiftCondition (cc (detail instr))) in
         let source := trunc (size_of Rn) (regs Rn) in
         run holds added regs
         = Some (write regs Rd
                   (trunc (size_of Rd)
                      (if increment
                       then source + trunc (size_of Rd) 1
                       else source))).
Proof.
  intros Hcount Hcc Rd Rn. unfold LiftCINC. rewrite Hcount.
  cbn [Z.eqb Pos.eqb negb]. fold Rd Rn.
  destruct (arm64_cc_eqb (cc (detail instr)) ARM64_CC_INVALID) eqn:Hinv;
    [apply arm64_cc_eqb_eq in Hinv; contradiction |].
  destruct (arm64_cc_eqb (cc (detail instr)) ARM64_CC_AL
            || arm64_cc_eqb (cc (detail instr)) ARM64_CC_NV) eqn:Hun.
  - eexists. split; [reflexivity |]. intros holds regs.
    cbn [orb]. unfold run.
    cbn [List.length exec nth_error step eval bind].
    now rewrite trunc_idem.
  - unfold AddInstruction, MarkLabel. rewrite <- !app_assoc.
    eexists. split; [reflexivity |]. intros holds regs.
    cbn [orb]. unfold run.
    destruct (holds (LiftCondition (cc (detail instr)))) eqn:Hholds;
      cbn [List.length app exec nth_error step eval bind label_position
           LowLevelILLabel_eqb option_map];
      rewrite ?Hholds;
      cbn [List.length app exec nth_error step eval bind label_position
           LowLevelILLabel_eqb option_map];
      now rewrite ?trunc_idem.
Qed.

(** X10. Run on any register file and any flags, what [LiftCSINC] appends
for an accepted three-operand instruction with a condition code other than
[AL] and [NV] writes one register, Rd: the value of Rn when the translated
condition holds, and the value of Rm plus one otherwise. *)
Theorem LiftCSINC_run (instr : cs_insn) (il : LowLevelILFunction) :
  op_count (detail instr) = 3 ->
  cc (detail instr) <> ARM64_CC_AL ->
  cc (detail instr) <> ARM64_CC_NV ->
  fst (LiftCSINC instr il) = true ->
  let Rd := register_of (operand (detail instr) 0) in
  let Rn := register_of (operand (detail instr) 1) in
  let Rm := register_of (operand (detail instr) 2) in
  exists added,
    LiftCSINC instr il = (true, il ++ added)
    /\ forall holds regs,
         run holds added regs
         = Some (write regs Rd
                   (trunc (size_of Rd)
                      (if holds (LiftCondition (cc (detail instr)))
                       then trunc (size_of Rn) (regs Rn)
                       else trunc (size_of Rm) (regs Rm)
                            + trunc (size_of Rd) 1))).
Proof.
  intros Hcount Hal Hnv Hacc Rd Rn Rm. revert Hacc.
  unfold LiftCSINC. rewrite Hcount.
  cbn [Z.eqb Pos.eqb negb]. fold Rd Rn Rm.
  match goal with
  | |- context [if ?c then (false, il) else _] => destruct c
  end; [discriminate |]. intros _.
  destruct (arm64_cc_eqb (cc (detail instr)) ARM64_CC_AL) eqn:Eal;
    [apply arm64_cc_eqb_eq in Eal; contradiction |].
  destruct (arm64_cc_eqb (cc (detail instr)) ARM64_CC_NV) eqn:Env;
    [apply arm64_cc_eqb_eq in Env; contradiction |].
  cbn [orb]. unfold AddInstruction, MarkLabel. rewrite <- !app_assoc.
  eexists. split; [reflexivity |]. intros holds regs. unfold run.
  destruct (holds (LiftCondition (cc (detail instr)))) eqn:Hholds;
    cbn [List.length app exec nth_error step eval bind label_position
         LowLevelILLabel_eqb option_map];
    rewrite ?Hholds;
    cbn [List.length app exec nth_error step eval bind label_position
         LowLevelILLabel_eqb option_map];
    now rewrite ?trunc_idem.
Qed.

(** X11. For the condition codes [AL] and [NV] an accepted [LiftCSINC]
appends one register write whose destination is not Rd but the number of
the expression that reads Rd, narrowed to 32 bits (line 127 passes that
expression where the register is expected).  Run on any register file it
leaves Rd as it was unless the two numbers happen to coincide. *)
Theorem LiftCSINC_unconditional_destination
    (instr : cs_insn) (il : LowLevelILFunction) :
  op_count (detail instr) = 3 ->
  cc (detail instr) = ARM64_CC_AL \/ cc (detail instr) = ARM64_CC_NV ->
  fst (LiftCSINC instr il) = true ->
  let Rd := register_of (operand (detail instr) 0) in
  let Rn := register_of (operand (detail instr) 1) in
  let written :=
    to_uint32 (expr_index il (Register (size_of Rd) Rd)) in
  LiftCSINC instr il
  = (true,
     il ++ [Instruction
              (SetRegister (size_of Rd) written
                 (Register (size_of Rn) Rn))])
  /\ forall holds regs,
       exists regs',
         run holds
             [Instruction
                (SetRegister (size_of Rd) written
                   (Register (size_of Rn) Rn))] regs
         = Some regs'
         /\ regs' written = trunc (size_of Rd) (trunc (size_of Rn) (regs Rn))
         /\ forall r, r <> written -> regs' r = regs r.
Proof.
  intros Hcount Hcc Hacc Rd Rn written. split.
  - revert Hacc. unfold LiftCSINC. rewrite Hcount.
    cbn [Z.eqb Pos.eqb negb]. fold Rd Rn.
    match goal with
    | |- context [if ?c then (false, il) else _] => destruct c
    end; [discriminate |]. intros _.
    destruct Hcc as [-> | ->]; reflexivity.
  - intros holds regs. eexists. split; [reflexivity |].
    unfold write. split.
    + now rewrite Z.eqb_refl.
    + intros r Hr. destruct (Z.eqb_spec r written); [contradiction |].
      reflexivity.
Qed.

(** X12. For a four-operand instruction whose destination is 4 or 8 bytes
wide and whose field lies inside the register, [LiftBFI] appends one write
to Rd of a value that, bit by bit, is the bitfield insert: inside the field
bit [i] is bit [i - lsb] of Rn, outside it is bit [i] of Rd. *)
Theorem LiftBFI_inserts_field (instr : cs_insn) (il : LowLevelILFunction) :
  op_count (detail instr) = 4 ->
  let Rd := register_of (operand (detail instr) 0) in
  let Rn := register_of (operand (detail instr) 1) in
  let lsb := imm (operand (detail instr) 2) in
  let width := imm (operand (detail instr) 3) in
  size_of Rd = 4 \/ size_of Rd = 8 ->
  0 <= lsb -> 0 <= width -> lsb < 8 * size_of Rd ->
  lsb + width <= 8 * size_of Rd ->
  exists value,
    LiftBFI instr il
    = Some (true, il ++ [Instruction (SetRegister (size_of Rd) Rd value)])
    /\ forall regs,
         exists v,
           eval regs value = Some v
           /\ forall i,
                0 <= i < 8 * size_of Rd ->
                Z.testbit v i
                = if (lsb <=? i) && (i <? lsb + width)
                  then Z.testbit (regs Rn) (i - lsb)
                  else Z.testbit (regs Rd) i.
Proof.
  intros Hcount Rd Rn lsb width Hsize Hlsb Hwidth Hlt Hfit.
  assert (Hbits : mask_bits (size_of Rd) = 8 * size_of Rd).
  { unfold mask_bits. destruct Hsize as [-> | ->]; reflexivity. }
  destruct (inclusion_mask_bits (size_of Rd) width lsb) as (m & Hm & Hmask);
    [lia | lia |].
  pose proof (LiftBFI_four_operands cs_reg_name GetRegisterByName
                GetRegisterInfo instr il Hcount) as Hrun.
  cbv zeta in Hrun. fold Rd Rn lsb width in Hrun.
  rewrite Hm in Hrun. cbn [bind] in Hrun.
  eexists. split; [exact Hrun |].
  intros regs. cbn [eval bind]. eexists. split; [reflexivity |].
  intros i Hi.
  assert (Hshift : trunc 1 (to_size_t lsb) = lsb).
  { unfold trunc, to_size_t, wrap.
    change (2 ^ bit_width uint64_t) with 18446744073709551616.
    change (2 ^ (8 * 1)) with 256.
    rewrite (Z.mod_small lsb) by (destruct Hsize as [H | H]; lia).
    apply Z.mod_small. destruct Hsize as [H | H]; lia. }
  assert (Hs : 0 <= size_of Rd) by (destruct Hsize; lia).
  rewrite Hshift.
  rewrite !trunc_testbit, Z.lor_spec, !trunc_testbit, !Z.land_spec,
    !trunc_testbit by assumption.
  unfold bnot. rewrite wrap_testbit, Z.lnot_spec by lia.
  rewrite Z.shiftl_spec by lia. rewrite trunc_testbit by assumption.
  rewrite Hmask, Hbits. known_widths.
  destruct (Z.ltb_spec i (8 * size_of Rd)); [| lia].
  destruct (Z.ltb_spec (i - lsb) (8 * size_of Rd)); [| lia].
  destruct (Z.ltb_spec i 64); [| destruct Hsize; lia].
  destruct (Z.leb_spec lsb i), (Z.ltb_spec i (lsb + width)); cbn;
    rewrite ?andb_true_r, ?andb_false_r, ?orb_false_r; reflexivity.
Qed.

(** ** The hook, all decoded inputs *)

(** X13. When the decoder reports a mnemonic other than the five handled
ones, the hook lifts nothing itself: its answer is the inherited hook's,
run on the function as it was and on the decoded size in place of the
caller's length. *)
Theorem GetInstructionLowLevelIL_unhandled
    (data : list Byte.byte) (addr len : Z) (il : LowLevelILFunction)
    (instr : cs_insn) (rest : list cs_insn) (n : Z) :
  cs_disasm data len addr = instr :: rest ->
  id instr = ARM64_INS_other n ->
  GetInstructionLowLevelIL data addr len il
  = Some (ArchitectureHook_GetInstructionLowLevelIL
            data addr (Capstone.size instr) il).
Proof.
  intros Hdis Hid. unfold GetInstructionLowLevelIL.
  rewrite Hdis, Hid. cbn [List.length]. rewrite Nat2Z.inj_succ.
  destruct (Z.gtb_spec (Z.succ (Z.of_nat (List.length rest))) 0); [| lia].
  reflexivity.
Qed.

(** X14. When the decoder reports at least one record, only the first one
counts and the hook has two possible answers.  Either a lifter accepted:
the hook returns [true], the decoded size and the function with a
non-empty sequence appended.  Or the hook returns what the inherited hook
returns on the decoded size and on the function exactly as it came in, so a
rejecting lifter leaves no trace.  The hook answers on every such input
except a bitfield insert whose mask is undefined. *)
Theorem GetInstructionLowLevelIL_decoded_outcome
    (data : list Byte.byte) (addr len : Z) (il : LowLevelILFunction)
    (instr : cs_insn) (rest : list cs_insn) :
  cs_disasm data len addr = instr :: rest ->
  (forall r,
     GetInstructionLowLevelIL data addr len il = Some r ->
     (exists added,
        added <> [] /\ r = (true, Capstone.size instr, il ++ added))
     \/ r = ArchitectureHook_GetInstructionLowLevelIL
              data addr (Capstone.size instr) il)
  /\ (id instr <> ARM64_INS_BFI ->
      exists r, GetInstructionLowLevelIL data addr len il = Some r).
Proof.
  intros Hdis.
  assert (Hlift : forall lifted : bool * LowLevelILFunction,
             atomic il lifted ->
             forall r,
               ('(supported, il') <- Some lifted ;;
                len' <- instr_size (instr :: rest) ;;
                if negb supported
                then Some (ArchitectureHook_GetInstructionLowLevelIL
                             data addr len' il')
                else Some (true, len', il')) = Some r ->
               (exists added,
                  added <> [] /\ r = (true, Capstone.size instr, il ++ added))
               \/ r = ArchitectureHook_GetInstructionLowLevelIL
                        data addr (Capstone.size instr) il).
  { intros [[|] il'] Hatomic r; cbn; intros [= <-].
    - destruct Hatomic as (added & Hne & Heq). cbn in Heq. subst il'.
      left. exists added. split; [assumption | reflexivity].
    - cbn in Hatomic. subst il'. right. reflexivity. }
  pose proof (LiftCSINC_atomic cs_reg_name GetRegisterByName GetRegisterInfo
                cast_cc expr_index instr il) as Hcsinc.
  pose proof (LiftUMULL_atomic cs_reg_name GetRegisterByName instr il)
    as Humull.
  pose proof (LiftCINC_atomic cs_reg_name GetRegisterByName GetRegisterInfo
                cast_cc instr il) as Hcinc.
  pose proof (LiftROR_atomic cs_reg_name GetRegisterByName GetRegisterInfo
                instr il) as Hror.
  assert (Hbfi : forall lifted, LiftBFI instr il = Some lifted ->
                                atomic il lifted).
  { intros lifted Hrun.
    destruct (Z.eq_dec (op_count (detail instr)) 4) as [Heq | Hne].
    - rewrite (LiftBFI_four_operands cs_reg_name GetRegisterByName
                 GetRegisterInfo instr il Heq) in Hrun.
      destruct (inclusion_mask _ _ _); cbn [bind] in Hrun; [| discriminate].
      injection Hrun as <-. auto with lifters.
    - unfold LiftBFI in Hrun.
      destruct (Z.eqb_spec (op_count (detail instr)) 4); [contradiction |].
      cbn [negb] in Hrun. injection Hrun as <-. auto with lifters. }
  unfold GetInstructionLowLevelIL. rewrite Hdis.
  cbn [List.length]. rewrite Nat2Z.inj_succ.
  destruct (Z.gtb_spec (Z.succ (Z.of_nat (List.length rest))) 0); [| lia].
  split.
  - intros r. destruct (id instr); try (apply Hlift; assumption).
    + destruct (LiftBFI instr il) as [lifted |]; [| discriminate].
      apply Hlift. apply Hbfi. reflexivity.
    + apply Hlift. reflexivity.
  - intros Hid. destruct (id instr); try contradiction.
    + destruct (LiftCSINC instr il) as [[|] ?]; cbn; eauto.
    + destruct (LiftUMULL instr il) as [[|] ?]; cbn; eauto.
    + destruct (LiftCINC instr il) as [[|] ?]; cbn; eauto.
    + destruct (LiftROR instr il) as [[|] ?]; cbn; eauto.
    + cbn; eauto.
Qed.

End MoreProperties.

(** ** Start-up *)

(** X15. Start-up registers the extension exactly when the decoder engine
opened.  If [cs_open] failed, the constructor sets no option, and
[CorePluginInit] returns [false], registers nothing and logs one error.  If
it succeeded, the constructor switches operand detail on for the opened
handle, and [CorePluginInit] returns [true], registers one extension built
around the architecture named aarch64 and logs one message.  Declared
dependencies are untouched either way. *)
Theorem CorePluginInit_registers_iff_opened
    (GetByName : string -> option Z) (opened : Plugin.cs_err * Z)
    (h : Plugin.host) :
  let disassembler := fst (Plugin.Disassembler_new opened) in
  let calls := snd (Plugin.Disassembler_new opened) in
  let ok := fst (Plugin.CorePluginInit GetByName disassembler h) in
  let h' := snd (Plugin.CorePluginInit GetByName disassembler h) in
  Plugin.dependencies h' = Plugin.dependencies h
  /\ match fst opened with
     | Plugin.CS_ERR_OK =>
         ok = true
         /\ calls = [Plugin.call_cs_option_detail_on (snd opened)]
         /\ Plugin.registered h'
            = Plugin.registered h
              ++ [Plugin.AArch64ArchitectureExtension
                    (GetByName "aarch64"%string)]
         /\ Plugin.log h'
            = Plugin.log h
              ++ [Plugin.LogInfo "Registered AArch64 extensions plugin"]
     | Plugin.CS_ERR_other _ =>
         ok = false
         /\ calls = []
         /\ Plugin.registered h' = Plugin.registered h
         /\ Plugin.log h'
            = Plugin.log h
              ++ [Plugin.LogError
                    "Failed to create AArch64 disassembler engine"]
     end.
Proof.
  destruct opened as [[| code] handle]; cbn; repeat split.
Qed.

(** ** The further properties on concrete instructions *)

Lemma unconditional_codes_emit_no_branch_witness :
  Sample.LiftCINC (Inputs.cinc ARM64_CC_NV) []
  = Sample.LiftCINC (Inputs.cinc ARM64_CC_AL) []
  /\ Sample.LiftCINC (Inputs.cinc ARM64_CC_AL) []
     = (true,
        [Instruction
           (SetRegister 8 34 (Add 8 (Register 8 35) (Const 8 1)))]).
Proof.
  split; [| reflexivity].
  apply (unconditional_codes_emit_no_branch
           Sample.cs_reg_name Sample.GetRegisterByName Sample.GetRegisterInfo
           Sample.cast_cc Sample.expr_index
           (Inputs.cinc ARM64_CC_AL) (Inputs.cinc ARM64_CC_NV) []);
    reflexivity.
Defined.

(** [cinc x0, x1, lt] with [x1 = 41], in flags where less-than holds and in
flags where nothing holds. *)
Lemma LiftCINC_run_witness :
  exists added,
    Sample.LiftCINC (Inputs.cinc ARM64_CC_LT) [] = (true, added)
    /\ (exists regs', run Inputs.holds added Inputs.regs = Some regs'
                      /\ regs' 34 = 42)
    /\ (exists regs', run (fun _ => false) added Inputs.regs = Some regs'
                      /\ regs' 34 = 41).
Proof.
  destruct (LiftCINC_run
              Sample.cs_reg_name Sample.GetRegisterByName
              Sample.GetRegisterInfo Sample.cast_cc
              (Inputs.cinc ARM64_CC_LT) [] eq_refl)
    as (added & Hrun & Hvalue); [discriminate |].
  exists added. split; [exact Hrun |]. split.
  - eexists. split; [apply Hvalue | reflexivity].
  - eexists. split; [apply Hvalue | reflexivity].
Defined.

(** [csinc x0, x1, x2, lt] with [x1 = 41] and [x2 = 7]. *)
Lemma LiftCSINC_run_witness :
  exists added,
    Sample.LiftCSINC (Inputs.csinc ARM64_CC_LT) [] = (true, added)
    /\ (exists regs', run Inputs.holds added Inputs.regs = Some regs'
                      /\ regs' 34 = 41)
    /\ (exists regs', run (fun _ => false) added Inputs.regs = Some regs'
                      /\ regs' 34 = 8).
Proof.
  destruct (LiftCSINC_run
              Sample.cs_reg_name Sample.GetRegisterByName
              Sample.GetRegisterInfo Sample.cast_cc Sample.expr_index
              (Inputs.csinc ARM64_CC_LT) [] eq_refl)
    as (added & Hrun & Hvalue);
    [discriminate | discriminate | reflexivity |].
  exists added. split; [exact Hrun |]. split.
  - eexists. split; [apply Hvalue | reflexivity].
  - eexists. split; [apply Hvalue | reflexivity].
Defined.

(** [csinc x0, x1, x2, al] lifted into an empty function: the expression
that reads [x0] has number 0 in the sample environment, so register 0 is
written and [x0], register 34, is not. *)
Lemma LiftCSINC_unconditional_destination_witness :
  Sample.LiftCSINC (Inputs.csinc ARM64_CC_AL) []
  = (true, [Instruction (SetRegister 8 0 (Register 8 35))])
  /\ exists regs',
       run Inputs.holds [Instruction (SetRegister 8 0 (Register 8 35))]
           Inputs.regs = Some regs'
       /\ regs' 0 = 41 /\ regs' 34 = 0.
Proof.
  destruct (LiftCSINC_unconditional_destination
              Sample.cs_reg_name Sample.GetRegisterByName
              Sample.GetRegisterInfo Sample.cast_cc Sample.expr_index
              (Inputs.csinc ARM64_CC_AL) [] eq_refl)
    as [Hrun Hvalue]; [left; reflexivity | reflexivity |].
  split; [exact Hrun |].
  destruct (Hvalue Inputs.holds Inputs.regs) as (regs' & Hregs & Hw & Hrest).
  exists regs'. split; [exact Hregs |]. split; [exact Hw |].
  apply (Hrest 34). discriminate.
Defined.

(** [bfi w0, w1, #28, #4] with [w1 = 0xFFFFFFFF] and [w0 = 0]: the top four
bits of the result are set and bit 27 is not. *)
Lemma LiftBFI_inserts_field_witness :
  exists value,
    Sample.LiftBFI Inputs.bfi_w0_w1 []
    = Some (true, [Instruction (SetRegister 4 1 value)])
    /\ exists v, eval Sample.regs value = Some v
                 /\ Z.testbit v 31 = true /\ Z.testbit v 27 = false.
Proof.
  destruct (LiftBFI_inserts_field
              Sample.cs_reg_name Sample.GetRegisterByName
              Sample.GetRegisterInfo Inputs.bfi_w0_w1 [] eq_refl)
    as (value & Hrun & Hvalue);
    [left; reflexivity | discriminate | discriminate | reflexivity
    | discriminate |].
  exists value. split; [exact Hrun |].
  destruct (Hvalue Sample.regs) as (v & Hv & Hbits).
  exists v. split; [exact Hv |]. split.
  - rewrite (Hbits 31); [reflexivity | split; [discriminate | reflexivity]].
  - rewrite (Hbits 27); [reflexivity | split; [discriminate | reflexivity]].
Defined.

(** An unhandled mnemonic decoded from four bytes. *)
Lemma GetInstructionLowLevelIL_unhandled_witness :
  Sample.GetInstructionLowLevelIL [Inputs.unhandled]
    [Byte.x00; Byte.x00; Byte.x00; Byte.x00] 4096 4 []
  = Some (false, 4, []).
Proof.
  apply (GetInstructionLowLevelIL_unhandled
           Sample.cs_reg_name Sample.GetRegisterByName Sample.GetRegisterInfo
           (Sample.cs_disasm [Inputs.unhandled])
           Sample.ArchitectureHook_GetInstructionLowLevelIL
           Sample.cast_cc Sample.expr_index
           [Byte.x00; Byte.x00; Byte.x00; Byte.x00] 4096 4 []
           Inputs.unhandled [] 7); reflexivity.
Defined.

(** [cinc x0, x1, lt] followed by a second record, decoded from eight
bytes: the hook lifts the first record and reports its size. *)
Lemma GetInstructionLowLevelIL_decoded_outcome_witness :
  exists r,
    Sample.GetInstructionLowLevelIL
      [Inputs.cinc ARM64_CC_LT; Inputs.unhandled]
      [Byte.x00; Byte.x00; Byte.x00; Byte.x00;
       Byte.x00; Byte.x00; Byte.x00; Byte.x00] 4096 8 [] = Some r
    /\ fst r = (true, 4).
Proof.
  destruct (GetInstructionLowLevelIL_decoded_outcome
              Sample.cs_reg_name Sample.GetRegisterByName
              Sample.GetRegisterInfo
              (Sample.cs_disasm [Inputs.cinc ARM64_CC_LT; Inputs.unhandled])
              Sample.ArchitectureHook_GetInstructionLowLevelIL
              Sample.cast_cc Sample.expr_index
              [Byte.x00; Byte.x00; Byte.x00; Byte.x00;
               Byte.x00; Byte.x00; Byte.x00; Byte.x00] 4096 8 []
              (Inputs.cinc ARM64_CC_LT) [Inputs.unhandled] eq_refl)
    as [_ Hdefined].
  destruct Hdefined as [r Hr]; [discriminate |].
  exists r. split; [exact Hr |].
  injection Hr as <-. reflexivity.
Defined.
